(** * BistroOps: the views of [app.py] over an explicit relational store

    The Flask application is embedded as pure functions: the SQLite database
    is a record of finite maps keyed by primary key, the ambient
    [current_user] and [request] are explicit arguments, [flash] accumulates
    in the outcome, and a Python exception that leaves a view is a value of
    an error monad.  The library primitives that parse text ([int], [float],
    [datetime.fromisoformat]) and the password hash are fields of the
    [Runtime] class. *)

From stdpp Require Import base option list gmap strings sorting.
From Stdlib Require Import ZArith PrimFloat Uint63.

Local Open Scope string_scope.
Local Open Scope Z_scope.

(** ** Exceptions and the error monad *)

(** The exceptions that can leave a view.  [BadRequestKeyError] is what
    [request.form[k]] raises for a missing key and [NotFound] what
    [get_or_404] raises; both are HTTP exceptions.  The others are ordinary
    Python exceptions, which nothing in [app.py] catches. *)
Inductive Exception :=
| BadRequestKeyError (key : string)
| NotFound
| ValueError
| AttributeError
| IntegrityError
| OverflowError.

Global Instance Exception_eq_dec : EqDecision Exception.
Proof. solve_decision. Defined.

Definition Result (A : Type) : Type := (Exception + A)%type.

Definition ret {A} (a : A) : Result A := inr a.
Definition raise {A} (e : Exception) : Result A := inl e.
Definition bind {A B} (m : Result A) (k : A → Result B) : Result B :=
  match m with
  | inl e => inl e
  | inr a => k a
  end.

Notation "x <- m ;; k" := (bind m (λ x, k))
  (at level 100, m at next level, right associativity).

(** ** Values *)

Module Date.
Record t := mk { year : Z; month : Z; day : Z }.
(** The sort key of a stored date: SQLite compares the zero-padded text
    [YYYY-MM-DD], that is the fields from left to right. *)
Definition key (d : t) : list Z := [year d; month d; day d].
End Date.

Module DateTime.
Record t := mk { date : Date.t; hour : Z; minute : Z; second : Z;
                 microsecond : Z }.
Definition key (d : t) : list Z :=
  Date.key (date d) ++ [hour d; minute d; second d; microsecond d].
End DateTime.

(** The sort key of a text column under SQLite's BINARY collation: the
    bytes, compared from left to right. *)
Fixpoint text_key (s : string) : list Z :=
  match s with
  | EmptyString => []
  | String a s' => Z.of_N (Ascii.N_of_ascii a) :: text_key s'
  end.

(** Python and library primitives the views call. *)
Class Runtime := {
  (** [int(s)] on a string; [None] stands for [ValueError]. *)
  py_int : string → option Z;
  (** [float(s)] on a string; [None] stands for [ValueError]. *)
  py_float : string → option float;
  (** [datetime.fromisoformat(s)]; [None] stands for [ValueError]. *)
  fromisoformat : string → option DateTime.t;
  (** [werkzeug.security.generate_password_hash]. *)
  generate_password_hash : string → string;
}.

(** ** Models *)

Module User.
Record t := mk { username : string; full_name : string; role : string;
                 password_hash : string }.
End User.

Module Shift.
Record t := mk { employee : string; role : string; start : DateTime.t;
                 end_ : DateTime.t }.
End Shift.

Module Reservation.
Record t := mk { customer : string; size : Z; at_ : DateTime.t;
                 notes : string }.
End Reservation.

Module ShiftReport.
Record t := mk { date : Date.t; lead_id : option Z; revenue : float;
                 issues : string; notes : string }.
End ShiftReport.

Module TimeEntry.
Record t := mk { user_id : option Z; start : DateTime.t; end_ : DateTime.t;
                 note : string }.
End TimeEntry.

Module ClothingDeposit.
Record t := mk { user_id : option Z; item : string; size : string;
                 amount : float; date : Date.t; returned : bool;
                 notes : string }.
End ClothingDeposit.

(** The database: one finite map per table, from primary key to row.
    Foreign keys are plain integers: the application never turns on
    SQLite's foreign-key enforcement, so they are not checked.  An SQLite
    integer has 64 bits: the keys and integer columns of stored rows are
    such integers, and an integer of the request that is not one is
    refused where it is bound, when a row that holds it is committed
    ([storable]) and when a row is looked up by it ([get_or_404]). *)
Record Store := {
  tbl_user : gmap Z User.t;
  tbl_shift : gmap Z Shift.t;
  tbl_reservation : gmap Z Reservation.t;
  tbl_shift_report : gmap Z ShiftReport.t;
  tbl_time_entry : gmap Z TimeEntry.t;
  tbl_clothing_deposit : gmap Z ClothingDeposit.t;
}.

Definition empty_store : Store :=
  {| tbl_user := ∅; tbl_shift := ∅; tbl_reservation := ∅;
     tbl_shift_report := ∅; tbl_time_entry := ∅; tbl_clothing_deposit := ∅ |}.

Definition set_user (f : gmap Z User.t → gmap Z User.t) (st : Store) :=
  {| tbl_user := f (tbl_user st); tbl_shift := tbl_shift st;
     tbl_reservation := tbl_reservation st;
     tbl_shift_report := tbl_shift_report st;
     tbl_time_entry := tbl_time_entry st;
     tbl_clothing_deposit := tbl_clothing_deposit st |}.

Definition set_shift (f : gmap Z Shift.t → gmap Z Shift.t) (st : Store) :=
  {| tbl_user := tbl_user st; tbl_shift := f (tbl_shift st);
     tbl_reservation := tbl_reservation st;
     tbl_shift_report := tbl_shift_report st;
     tbl_time_entry := tbl_time_entry st;
     tbl_clothing_deposit := tbl_clothing_deposit st |}.

Definition set_reservation
    (f : gmap Z Reservation.t → gmap Z Reservation.t) (st : Store) :=
  {| tbl_user := tbl_user st; tbl_shift := tbl_shift st;
     tbl_reservation := f (tbl_reservation st);
     tbl_shift_report := tbl_shift_report st;
     tbl_time_entry := tbl_time_entry st;
     tbl_clothing_deposit := tbl_clothing_deposit st |}.

Definition set_shift_report
    (f : gmap Z ShiftReport.t → gmap Z ShiftReport.t) (st : Store) :=
  {| tbl_user := tbl_user st; tbl_shift := tbl_shift st;
     tbl_reservation := tbl_reservation st;
     tbl_shift_report := f (tbl_shift_report st);
     tbl_time_entry := tbl_time_entry st;
     tbl_clothing_deposit := tbl_clothing_deposit st |}.

Definition set_time_entry
    (f : gmap Z TimeEntry.t → gmap Z TimeEntry.t) (st : Store) :=
  {| tbl_user := tbl_user st; tbl_shift := tbl_shift st;
     tbl_reservation := tbl_reservation st;
     tbl_shift_report := tbl_shift_report st;
     tbl_time_entry := f (tbl_time_entry st);
     tbl_clothing_deposit := tbl_clothing_deposit st |}.

Definition set_clothing_deposit
    (f : gmap Z ClothingDeposit.t → gmap Z ClothingDeposit.t) (st : Store) :=
  {| tbl_user := tbl_user st; tbl_shift := tbl_shift st;
     tbl_reservation := tbl_reservation st;
     tbl_shift_report := tbl_shift_report st;
     tbl_time_entry := tbl_time_entry st;
     tbl_clothing_deposit := f (tbl_clothing_deposit st) |}.

(** The key SQLite gives a new row of an [INTEGER PRIMARY KEY] table: one
    more than the largest key in use, 1 in an empty table. *)
Definition next_id {A} (m : gmap Z A) : Z :=
  1 + foldr Z.max 0 (fst <$> map_to_list m).

(** [db.session.add(x); db.session.commit()] *)
Definition add {A} (x : A) (m : gmap Z A) : gmap Z A := <[next_id m := x]> m.

(** The integers SQLite stores and sqlite3 binds. *)
Definition int64 (z : Z) : Prop := - 2 ^ 63 ≤ z < 2 ^ 63.

Global Instance int64_dec (z : Z) : Decision (int64 z).
Proof. unfold int64. apply _. Defined.

(** The commit of a new row whose integer column holds [z], an integer of
    the request: sqlite3 raises for an integer outside 64 bits, and nothing
    is stored. *)
Definition storable (z : Z) : Result unit :=
  if decide (int64 z) then ret tt else raise OverflowError.

(** [Model.query.get_or_404(id)].  The keys of a table are 64-bit
    integers, so an id outside that range names no row; sqlite3 raises
    when it binds such an id for the lookup. *)
Definition get_or_404 {A} (m : gmap Z A) (id : Z) : Result A :=
  match m !! id with
  | Some x => ret x
  | None => if decide (int64 id) then raise NotFound else raise OverflowError
  end.

(** ** Requests and responses *)

Inductive Method := GET | POST.

Global Instance Method_eq_dec : EqDecision Method.
Proof. solve_decision. Defined.

(** [request]: the method and the submitted form. *)
Record Request := { method : Method; form : gmap string string }.

(** [request.form[k]] *)
Definition form_item (req : Request) (k : string) : Result string :=
  match form req !! k with
  | Some v => ret v
  | None => raise (BadRequestKeyError k)
  end.

(** [request.form.get(k, d)] *)
Definition form_get (req : Request) (k d : string) : string :=
  default d (form req !! k).

(** What [render_template] is given: the template and its data.  Rows are
    paired with their primary key. *)
Inductive Page :=
| team_html (people : list (Z * User.t))
| shifts_html (data : list (Z * Shift.t))
| reservations_html (data : list (Z * Reservation.t))
| reports_html (data : list (Z * ShiftReport.t))
| hours_html (data : list (Z * TimeEntry.t)) (users : list (Z * User.t))
| deposit_html (data : list (Z * ClothingDeposit.t))
               (users : list (Z * User.t))
| users_html (data : list (Z * User.t)).

Inductive Response :=
| redirect (endpoint : string)        (* [redirect(url_for(endpoint))] *)
| render_template (page : Page)
| unauthorized                         (* [login_manager.unauthorized()] *)
| http_error (status : Z)              (* the error page of an HTTP exception *)
| internal_error (e : Exception).      (* an exception nothing caught *)

(** A message given to [flash], with its category. *)
Definition Flash : Type := (string * string)%type.

Record Outcome := { flashed : list Flash; response : Response }.

Definition respond (r : Response) : Outcome :=
  {| flashed := []; response := r |}.

Definition flash_and (msg : string) (r : Response) : Outcome :=
  {| flashed := [(msg, "error")]; response := r |}.

(** [current_user]: the row the session's user id loads, paired with its
    id, or [None] for the anonymous user. *)
Definition Actor : Type := option (Z * User.t).

(** A view function: reads [current_user] and [request], returns the store
    as committed and the response, or raises. *)
Definition View : Type := Actor → Request → Store → Result (Store * Outcome).

(** ** Ordering of query results *)

(** Lexicographic comparison of sort keys, as SQLite compares text. *)
Fixpoint lex_leb (a b : list Z) : bool :=
  match a, b with
  | [], _ => true
  | _ :: _, [] => false
  | x :: a', y :: b' => (x <? y) || ((x =? y) && lex_leb a' b')
  end.

Definition lex_le (a b : list Z) : Prop := lex_leb a b.

(** [ORDER BY c1, c2]: rows compared on [R1], ties on [R1] broken by [R2]. *)
Definition then_by {A} (R1 R2 : relation A) : relation A :=
  λ a b, R1 a b ∧ (R1 b a → R2 a b).

Global Instance then_by_dec {A} (R1 R2 : relation A)
  `{∀ x y, Decision (R1 x y)} `{∀ x y, Decision (R2 x y)} :
  ∀ x y, Decision (then_by R1 R2 x y).
Proof. intros x y. unfold then_by. apply _. Defined.

(** [col.asc()] and [col.desc()] for a column with sort key [key]. *)
Definition asc {A} (key : A → list Z) : relation (Z * A) :=
  λ a b, lex_le (key a.2) (key b.2).
Definition desc {A} (key : A → list Z) : relation (Z * A) :=
  λ a b, lex_le (key b.2) (key a.2).

Global Instance asc_dec {A} (key : A → list Z) :
  ∀ x y, Decision (asc key x y).
Proof. intros x y. unfold asc, lex_le. apply _. Defined.
Global Instance desc_dec {A} (key : A → list Z) :
  ∀ x y, Decision (desc key x y).
Proof. intros x y. unfold desc, lex_le. apply _. Defined.

(** [query.order_by(...).all()].  SQL leaves the order of rows that compare
    equal open; the merge sort fixes one. *)
Definition order_by {A} (R : relation (Z * A)) `{∀ x y, Decision (R x y)}
    (rows : list (Z * A)) : list (Z * A) :=
  merge_sort R rows.

(** [Model.query]: all rows of a table. *)
Definition query {A} (m : gmap Z A) : list (Z * A) := map_to_list m.

(** ** Decorators *)

(** [@login_required] *)
Definition login_required (fn : View) : View :=
  λ current_user request st,
    match current_user with
    | None => ret (st, respond unauthorized)
    | Some _ => fn current_user request st
    end.

(** [@role_required(r1, r2, ...)] *)
Definition role_required (roles : list string) (fn : View) : View :=
  λ current_user request st,
    match current_user with
    | None => ret (st, respond unauthorized)
    | Some (_, u) =>
        if bool_decide (User.role u ∈ roles)
        then fn current_user request st
        else ret (st, flash_and "Keine Berechtigung." (redirect "dashboard"))
    end.

(** [current_user.id] and [current_user.role]; the anonymous user has
    neither attribute. *)
Definition the_user (current_user : Actor) : Result (Z * User.t) :=
  match current_user with
  | Some cu => ret cu
  | None => raise AttributeError
  end.

Section Views.
Context `{Runtime}.

Definition of_parse {A} (o : option A) : Result A :=
  match o with
  | Some a => ret a
  | None => raise ValueError
  end.

(** [int(request.form[k])] *)
Definition form_int (req : Request) (k : string) : Result Z :=
  s <- form_item req k ;; of_parse (py_int s).

(** [datetime.fromisoformat(request.form[k])] *)
Definition form_datetime (req : Request) (k : string) : Result DateTime.t :=
  s <- form_item req k ;; of_parse (fromisoformat s).

(** [float(request.form.get(k, 0) or 0)]: a missing key gives the integer
    0 and an empty string is falsy, so both reach [float(0)]; any other
    string is parsed. *)
Definition form_float_or_0 (req : Request) (k : string) : Result float :=
  match form req !! k with
  | None => ret 0%float
  | Some s =>
      if decide (s = EmptyString) then ret 0%float else of_parse (py_float s)
  end.

(** [int(request.form[k] or 2)]: the key must be there; an empty string is
    falsy and gives [int(2)]; any other string is parsed. *)
Definition form_int_or_2 (req : Request) (k : string) : Result Z :=
  s <- form_item req k ;;
  if decide (s = EmptyString) then ret 2 else of_parse (py_int s).

(** *** Team directory *)

Definition team : View := login_required (λ current_user request st,
  let people :=
    order_by (then_by (desc (text_key ∘ User.role))
                      (asc (text_key ∘ User.username)))
             (query (tbl_user st)) in
  ret (st, respond (render_template (team_html people)))).

(** *** Shifts *)

Definition shifts : View := login_required (λ current_user request st,
  if decide (method request = POST) then
    cu <- the_user current_user ;;
    if bool_decide (User.role cu.2 ∉ ["shift_lead"; "manager"]) then
      ret (st, flash_and
             "Nur Schichtleitung/Manager dürfen Schichten anlegen."
             (redirect "shifts"))
    else
      employee <- form_item request "employee" ;;
      let role := form_get request "role" EmptyString in
      start <- form_datetime request "start" ;;
      end_ <- form_datetime request "end" ;;
      let s := Shift.mk employee role start end_ in
      ret (set_shift (add s) st, respond (redirect "shifts"))
  else
    let data := order_by (desc (DateTime.key ∘ Shift.start))
                         (query (tbl_shift st)) in
    ret (st, respond (render_template (shifts_html data)))).

Definition shifts_delete (id : Z) : View :=
  login_required (role_required ["shift_lead"; "manager"]
    (λ current_user request st,
      _ <- get_or_404 (tbl_shift st) id ;;
      ret (set_shift (delete id) st, respond (redirect "shifts")))).

(** *** Reservations *)

Definition reservations : View :=
  login_required (role_required ["shift_lead"; "manager"]
    (λ current_user request st,
      if decide (method request = POST) then
        customer <- form_item request "customer" ;;
        size <- form_int_or_2 request "size" ;;
        at_ <- form_datetime request "at" ;;
        let notes := form_get request "notes" EmptyString in
        let r := Reservation.mk customer size at_ notes in
        _ <- storable size ;;
        ret (set_reservation (add r) st, respond (redirect "reservations"))
      else
        let data := order_by (desc (DateTime.key ∘ Reservation.at_))
                             (query (tbl_reservation st)) in
        ret (st, respond (render_template (reservations_html data))))).

Definition res_delete (id : Z) : View :=
  login_required (role_required ["shift_lead"; "manager"]
    (λ current_user request st,
      _ <- get_or_404 (tbl_reservation st) id ;;
      ret (set_reservation (delete id) st,
           respond (redirect "reservations")))).

(** *** Shift reports *)

Definition reports : View :=
  login_required (role_required ["shift_lead"; "manager"]
    (λ current_user request st,
      if decide (method request = POST) then
        date <- form_datetime request "date" ;;
        cu <- the_user current_user ;;
        revenue <- form_float_or_0 request "revenue" ;;
        let issues := form_get request "issues" EmptyString in
        let notes := form_get request "notes" EmptyString in
        let rep := ShiftReport.mk (DateTime.date date) (Some cu.1) revenue
                                  issues notes in
        ret (set_shift_report (add rep) st, respond (redirect "reports"))
      else
        let data := order_by (desc (Date.key ∘ ShiftReport.date))
                             (query (tbl_shift_report st)) in
        ret (st, respond (render_template (reports_html data))))).

Definition reports_delete (id : Z) : View :=
  login_required (role_required ["shift_lead"; "manager"]
    (λ current_user request st,
      _ <- get_or_404 (tbl_shift_report st) id ;;
      ret (set_shift_report (delete id) st, respond (redirect "reports")))).

(** *** Time entries *)

Definition hours : View := login_required (λ current_user request st,
  if decide (method request = POST) then
    (* waiter may only create for self *)
    user_id <- form_int request "user_id" ;;
    cu <- the_user current_user ;;
    if bool_decide (User.role cu.2 = "waiter" ∧ user_id ≠ cu.1) then
      ret (st, flash_and "Kellner dürfen nur eigene Stunden eintragen."
                         (redirect "hours"))
    else
      let allowed :=
        if decide (User.role cu.2 = "waiter") then true
        else true (* lead/manager can add any *) in
      if allowed then
        start <- form_datetime request "start" ;;
        end_ <- form_datetime request "end" ;;
        let note := form_get request "note" EmptyString in
        let t := TimeEntry.mk (Some user_id) start end_ note in
        _ <- storable user_id ;;
        ret (set_time_entry (add t) st, respond (redirect "hours"))
      else ret (st, respond (redirect "hours"))
  else
    (* waiter sees own; lead/manager see all *)
    cu <- the_user current_user ;;
    if decide (User.role cu.2 = "waiter") then
      let data :=
        order_by (desc (DateTime.key ∘ TimeEntry.start))
          (filter (λ r, TimeEntry.user_id r.2 = Some cu.1)
                  (query (tbl_time_entry st))) in
      let users := [cu] in
      ret (st, respond (render_template (hours_html data users)))
    else
      let data := order_by (desc (DateTime.key ∘ TimeEntry.start))
                           (query (tbl_time_entry st)) in
      let users := order_by (asc (text_key ∘ User.username))
                            (query (tbl_user st)) in
      ret (st, respond (render_template (hours_html data users)))).

Definition hours_delete (id : Z) : View :=
  login_required (λ current_user request st,
    t <- get_or_404 (tbl_time_entry st) id ;;
    cu <- the_user current_user ;;
    if bool_decide (User.role cu.2 = "waiter"
                    ∧ TimeEntry.user_id t ≠ Some cu.1) then
      ret (st, flash_and "Kellner dürfen nur eigene Einträge löschen."
                         (redirect "hours"))
    else if bool_decide (User.role cu.2 ∈ ["shift_lead"; "manager"]
                         ∨ TimeEntry.user_id t = Some cu.1) then
      ret (set_time_entry (delete id) st, respond (redirect "hours"))
    else ret (st, respond (redirect "hours"))).

(** *** Clothing deposit *)

Definition deposit : View :=
  login_required (role_required ["manager"]
    (λ current_user request st,
      if decide (method request = POST) then
        user_id <- form_int request "user_id" ;;
        item <- form_item request "item" ;;
        let size := form_get request "size" EmptyString in
        amount <- form_float_or_0 request "amount" ;;
        date <- form_datetime request "date" ;;
        let returned := bool_decide (is_Some (form request !! "returned")) in
        let notes := form_get request "notes" EmptyString in
        let d := ClothingDeposit.mk (Some user_id) item size amount
                                    (DateTime.date date) returned notes in
        _ <- storable user_id ;;
        ret (set_clothing_deposit (add d) st, respond (redirect "deposit"))
      else
        let data := order_by (desc (Date.key ∘ ClothingDeposit.date))
                             (query (tbl_clothing_deposit st)) in
        let users := order_by (asc (text_key ∘ User.username))
                              (query (tbl_user st)) in
        ret (st, respond (render_template (deposit_html data users))))).

(** [d.returned = not d.returned] *)
Definition toggle_returned (d : ClothingDeposit.t) : ClothingDeposit.t :=
  ClothingDeposit.mk (ClothingDeposit.user_id d) (ClothingDeposit.item d)
    (ClothingDeposit.size d) (ClothingDeposit.amount d)
    (ClothingDeposit.date d) (negb (ClothingDeposit.returned d))
    (ClothingDeposit.notes d).

Definition deposit_toggle (id : Z) : View :=
  login_required (role_required ["manager"]
    (λ current_user request st,
      d <- get_or_404 (tbl_clothing_deposit st) id ;;
      ret (set_clothing_deposit (insert id (toggle_returned d)) st,
           respond (redirect "deposit")))).

Definition deposit_delete (id : Z) : View :=
  login_required (role_required ["manager"]
    (λ current_user request st,
      _ <- get_or_404 (tbl_clothing_deposit st) id ;;
      ret (set_clothing_deposit (delete id) st,
           respond (redirect "deposit")))).

(** *** User management *)

(** The [unique=True] constraint on [User.username], which SQLite checks
    when the row is committed. *)
Definition username_taken (name : string) (m : gmap Z User.t) : bool :=
  bool_decide (Exists (λ r, User.username r.2 = name) (query m)).

Definition add_user (u : User.t) (st : Store) : Result Store :=
  if username_taken (User.username u) (tbl_user st)
  then raise IntegrityError
  else ret (set_user (add u) st).

Definition users : View :=
  login_required (role_required ["manager"]
    (λ current_user request st,
      if decide (method request = POST) then
        username <- form_item request "username" ;;
        let full_name := form_get request "full_name" EmptyString in
        let role := form_get request "role" "waiter" in
        password <- form_item request "password" ;;
        let u := User.mk username full_name role
                         (generate_password_hash password) in
        st' <- add_user u st ;;
        ret (st', respond (redirect "users"))
      else
        let data := order_by (asc (text_key ∘ User.username))
                             (query (tbl_user st)) in
        ret (st, respond (render_template (users_html data))))).

Definition users_delete (id : Z) : View :=
  login_required (role_required ["manager"]
    (λ current_user request st,
      cu <- the_user current_user ;;
      if decide (id = cu.1) then
        ret (st, flash_and "Eigenen Account nicht löschen."
                           (redirect "users"))
      else
        _ <- get_or_404 (tbl_user st) id ;;
        ret (set_user (delete id) st, respond (redirect "users")))).

(** *** Provisioning *)

(** [ensure(u, p, role, name)] of [db_init]. *)
Definition ensure (u p role name : string) (st : Store) : Store :=
  if username_taken u (tbl_user st) then st
  else set_user (add (User.mk u name role (generate_password_hash p))) st.

Definition db_init (st : Store) : Store :=
  ensure "waiter" "waiter123" "waiter" "Kellner"
    (ensure "lead" "lead123" "shift_lead" "Schichtleiter"
       (ensure "admin" "admin123" "manager" "Betriebsleiter" st)).

(** ** Serving a request *)

(** [load_user]: the session's user id to the row it names. *)
Definition load_user (st : Store) (user_id : Z) : Actor :=
  (λ u, (user_id, u)) <$> tbl_user st !! user_id.

(** What Flask makes of an exception that leaves the view: the error page
    of an HTTP exception, an internal server error for any other. *)
Definition handle_exception (e : Exception) : Response :=
  match e with
  | BadRequestKeyError _ => http_error 400
  | NotFound => http_error 404
  | _ => internal_error e
  end.

(** One request: [session] holds the logged-in user's id, if any.  When
    the view raises, nothing was committed.  The method filter of the route
    table is not part of the view: the delete and toggle routes take POST
    only and the team route GET only, and the statements about them are
    made for such requests. *)
Definition serve (view : View) (session : option Z) (request : Request)
    (st : Store) : Store * Outcome :=
  match view (session ≫= load_user st) request st with
  | inr r => r
  | inl e => (st, respond (handle_exception e))
  end.
End Views.

(** ** A reference runtime

    A small instance of [Runtime] on which the views can be run: decimal
    integers with an optional minus sign, and timestamps written
    [YYYY-MM-DD] or [YYYY-MM-DDTHH:MM], the form an HTML date or
    datetime-local field submits.  Every string it accepts Python accepts
    with the same value. *)
Module Reference.
Definition digit (a : Ascii.ascii) : option Z :=
  let n := Z.of_N (Ascii.N_of_ascii a) in
  if bool_decide (48 ≤ n ≤ 57) then Some (n - 48) else None.

Fixpoint digits (acc : Z) (s : string) : option Z :=
  match s with
  | EmptyString => Some acc
  | String a s' =>
      match digit a with
      | Some d => digits (10 * acc + d) s'
      | None => None
      end
  end.

Definition number (s : string) : option Z :=
  match s with
  | EmptyString => None
  | _ => digits 0 s
  end.

Definition int (s : string) : option Z :=
  match s with
  | String a s' =>
      if bool_decide (Ascii.N_of_ascii a = 45%N) (* minus sign *)
      then Z.opp <$> number s' else number s
  | EmptyString => None
  end.

(** Whole numbers below 2^53, which a float holds exactly. *)
Definition float_ (s : string) : option float :=
  match number s with
  | Some n =>
      if bool_decide (n < 2 ^ 53)
      then Some (PrimFloat.of_uint63 (Uint63.of_Z n))
      else None
  | None => None
  end.

Definition field (s : string) (start len : nat) (lo hi : Z) : option Z :=
  match number (String.substring start len s) with
  | Some n => if bool_decide (lo ≤ n ≤ hi) then Some n else None
  | None => None
  end.

Definition days_in_month (y m : Z) : Z :=
  if bool_decide (m = 2) then
    if bool_decide (y mod 4 = 0 ∧ (y mod 100 ≠ 0 ∨ y mod 400 = 0))
    then 29 else 28
  else if bool_decide (m ∈ [4; 6; 9; 11]) then 30 else 31.

Definition date_part (s : string) : option Date.t :=
  y ← field s 0 4 1 9999;
  m ← field s 5 2 1 12;
  d ← field s 8 2 1 (days_in_month y m);
  if bool_decide (String.substring 4 1 s = "-"
                  ∧ String.substring 7 1 s = "-")
  then Some (Date.mk y m d) else None.

Definition isoformat (s : string) : option DateTime.t :=
  if bool_decide (String.length s = 10%nat) then
    d ← date_part s; Some (DateTime.mk d 0 0 0 0)
  else if bool_decide (String.length s = 16%nat
                       ∧ String.substring 10 1 s = "T"
                       ∧ String.substring 13 1 s = ":") then
    d ← date_part s;
    h ← field s 11 2 0 23;
    mi ← field s 14 2 0 59;
    Some (DateTime.mk d h mi 0 0)
  else None.

Definition password_hash (p : string) : string := "plain:" +:+ p.

Global Instance runtime : Runtime :=
  {| py_int := int; py_float := float_; fromisoformat := isoformat;
     generate_password_hash := password_hash |}.
End Reference.

(** ** Operations and the policy table *)

(** The operations of the application, one per route and method. *)
Inductive Operation :=
| TeamList
| ShiftCreate | ShiftList | ShiftDelete (id : Z)
| ReservationCreate | ReservationList | ReservationDelete (id : Z)
| ReportCreate | ReportList | ReportDelete (id : Z)
| TimeEntryCreate | TimeEntryList | TimeEntryDelete (id : Z)
| DepositCreate | DepositList | DepositToggle (id : Z)
| DepositDelete (id : Z)
| UserCreate | UserList | UserDelete (id : Z).

Definition method_of (op : Operation) : Method :=
  match op with
  | TeamList | ShiftList | ReservationList | ReportList | TimeEntryList
  | DepositList | UserList => GET
  | _ => POST
  end.

Definition view_of `{Runtime} (op : Operation) : View :=
  match op with
  | TeamList => team
  | ShiftCreate | ShiftList => shifts
  | ShiftDelete id => shifts_delete id
  | ReservationCreate | ReservationList => reservations
  | ReservationDelete id => res_delete id
  | ReportCreate | ReportList => reports
  | ReportDelete id => reports_delete id
  | TimeEntryCreate | TimeEntryList => hours
  | TimeEntryDelete id => hours_delete id
  | DepositCreate | DepositList => deposit
  | DepositToggle id => deposit_toggle id
  | DepositDelete id => deposit_delete id
  | UserCreate | UserList => users
  | UserDelete id => users_delete id
  end.

(** The list page of the resource an operation belongs to. *)
Definition list_page (op : Operation) : string :=
  match op with
  | TeamList => "team"
  | ShiftCreate | ShiftList | ShiftDelete _ => "shifts"
  | ReservationCreate | ReservationList | ReservationDelete _ => "reservations"
  | ReportCreate | ReportList | ReportDelete _ => "reports"
  | TimeEntryCreate | TimeEntryList | TimeEntryDelete _ => "hours"
  | DepositCreate | DepositList | DepositToggle _ | DepositDelete _ => "deposit"
  | UserCreate | UserList | UserDelete _ => "users"
  end.

(** The policy table as the specification words it: whether the actor with
    role [role] and id [me] may perform [op]; [owner] is the user id of the
    record concerned, where ownership matters. *)
Definition spec_authorize (role : string) (me : Z) (op : Operation)
    (owner : option Z) : bool :=
  let lead_or_manager := bool_decide (role ∈ ["shift_lead"; "manager"]) in
  let manager := bool_decide (role = "manager") in
  match op with
  | TeamList | ShiftList | TimeEntryList => true
  | ShiftCreate | ShiftDelete _ => lead_or_manager
  | ReservationCreate | ReservationList | ReservationDelete _ => lead_or_manager
  | ReportCreate | ReportList | ReportDelete _ => lead_or_manager
  | TimeEntryCreate =>
      lead_or_manager
      || (bool_decide (role = "waiter") && bool_decide (owner = Some me))
  | TimeEntryDelete _ => lead_or_manager || bool_decide (owner = Some me)
  | DepositCreate | DepositList | DepositToggle _ | DepositDelete _ => manager
  | UserCreate | UserList => manager
  | UserDelete id => manager && bool_decide (id ≠ me)
  end.

(** The owner the policy is asked about: the user id a time-entry request
    supplies, the user id of the time entry to delete.  [None] when the
    request or the store has no such thing. *)
Definition owner_of `{Runtime} (op : Operation) (request : Request)
    (st : Store) : option (option Z) :=
  match op with
  | TimeEntryCreate => Some <$> (form request !! "user_id" ≫= py_int)
  | TimeEntryDelete id => TimeEntry.user_id <$> tbl_time_entry st !! id
  | _ => Some None
  end.

(** Where a refused actor is sent: the view's own checks send back to the
    list page, the [role_required] decorator to the dashboard. *)
Definition returned_to (op : Operation) (role : string) : string :=
  match op with
  | ShiftCreate | TimeEntryCreate | TimeEntryDelete _ => list_page op
  | UserDelete _ =>
      if decide (role = "manager") then list_page op else "dashboard"
  | _ => "dashboard"
  end.

(** One row of one table inserted under a fresh key, or deleted. *)
Definition row_step {A} (m m' : gmap Z A) : Prop :=
  (∃ x, m' = <[next_id m := x]> m)
  ∨ (∃ id, is_Some (m !! id) ∧ m' = delete id m).

(** The store after a request: as before, or one row of one table inserted
    or deleted, or one clothing deposit toggled. *)
Definition single_row (st st' : Store) : Prop :=
  st' = st
  ∨ (∃ m, row_step (tbl_user st) m ∧ st' = set_user (λ _, m) st)
  ∨ (∃ m, row_step (tbl_shift st) m ∧ st' = set_shift (λ _, m) st)
  ∨ (∃ m, row_step (tbl_reservation st) m
          ∧ st' = set_reservation (λ _, m) st)
  ∨ (∃ m, row_step (tbl_shift_report st) m
          ∧ st' = set_shift_report (λ _, m) st)
  ∨ (∃ m, row_step (tbl_time_entry st) m ∧ st' = set_time_entry (λ _, m) st)
  ∨ (∃ m, row_step (tbl_clothing_deposit st) m
          ∧ st' = set_clothing_deposit (λ _, m) st)
  ∨ (∃ id d, tbl_clothing_deposit st !! id = Some d
             ∧ st' = set_clothing_deposit (insert id (toggle_returned d)) st).

(** ** Create operations and their timestamp fields *)

Inductive CreateOp :=
| create_shift | create_reservation | create_report | create_time_entry
| create_deposit.

Definition create_view `{Runtime} (op : CreateOp) : View :=
  match op with
  | create_shift => shifts
  | create_reservation => reservations
  | create_report => reports
  | create_time_entry => hours
  | create_deposit => deposit
  end.

Definition timestamp_fields (op : CreateOp) : list string :=
  match op with
  | create_shift | create_time_entry => ["start"; "end"]
  | create_reservation => ["at"]
  | create_report | create_deposit => ["date"]
  end.

(** The request has the field and [fromisoformat] rejects it. *)
Definition unparseable `{Runtime} (request : Request) (k : string) : Prop :=
  ∃ s, form request !! k = Some s ∧ fromisoformat s = None.

(** A failure shown to the user as a notice and a redirect. *)
Definition notice_and_redirect (o : Outcome) : Prop :=
  flashed o ≠ [] ∧ ∃ endpoint, response o = redirect endpoint.

(** An error page: HTTP 400, or the internal server error of an uncaught
    [ValueError]; nothing flashed, no redirect. *)
Definition error_page (o : Outcome) : Prop :=
  flashed o = []
  ∧ (response o = http_error 400 ∨ response o = internal_error ValueError).

Definition as_operation (op : CreateOp) : Operation :=
  match op with
  | create_shift => ShiftCreate
  | create_reservation => ReservationCreate
  | create_report => ReportCreate
  | create_time_entry => TimeEntryCreate
  | create_deposit => DepositCreate
  end.

(** ** Sample data *)

(** A POST request with the given form fields. *)
Definition post (fields : list (string * string)) : Request :=
  {| method := POST; form := list_to_map fields |}.

(** A GET request. *)
Definition get : Request := {| method := GET; form := ∅ |}.

(** The store right after provisioning, on the reference runtime: user 1 is
    the manager [admin], 2 the shift lead [lead], 3 the waiter [waiter]. *)
Definition seeded : Store := db_init empty_store.

Definition admin_row : User.t :=
  User.mk "admin" "Betriebsleiter" "manager" "plain:admin123".
Definition lead_row : User.t :=
  User.mk "lead" "Schichtleiter" "shift_lead" "plain:lead123".
Definition waiter_row : User.t :=
  User.mk "waiter" "Kellner" "waiter" "plain:waiter123".

Definition nine : DateTime.t := DateTime.mk (Date.mk 2024 1 1) 9 0 0 0.
Definition five : DateTime.t := DateTime.mk (Date.mk 2024 1 1) 17 0 0 0.

(** The seeded store with one time entry of the waiter's and one clothing
    deposit. *)
Definition own_entry : TimeEntry.t :=
  TimeEntry.mk (Some 3) nine five EmptyString.

Definition apron : ClothingDeposit.t :=
  ClothingDeposit.mk (Some 3) "Schürze" "M" 0%float (Date.mk 2024 1 1) false
                     EmptyString.

Definition busy : Store :=
  set_clothing_deposit (insert 1 apron)
    (set_time_entry (insert 1 own_entry) seeded).

(** ** The roles *)

(** The three roles the application knows, as the comment on [User.role]
    lists them. *)
Definition roles : list string := ["waiter"; "shift_lead"; "manager"].

(** Requests used below. *)
Definition chef_request : Request :=
  post [("username", "carl"); ("password", "secret"); ("role", "chef")].

Definition ghost_hours_request : Request :=
  post [("user_id", "999"); ("start", "2024-01-01T09:00");
        ("end", "2024-01-01T17:00")].

Definition ghost_deposit_request : Request :=
  post [("user_id", "999"); ("item", "Weste"); ("date", "2024-01-01")].

Definition sizeless_reservation : Request :=
  post [("customer", "Smith"); ("at", "2024-02-01T19:00")].

(** ** Ordered listings *)

(** [rows] lists exactly the rows of [table], in an order that respects
    [R]. *)
Definition ordered {A} (R : relation (Z * A)) (table rows : list (Z * A)) :=
  rows ≡ₚ table ∧ StronglySorted R rows.

(** A store whose manager sorts first by name and last by role. *)
Definition alice : User.t := User.mk "alice" "Alice" "manager" "plain:a".
Definition bob : User.t := User.mk "bob" "Bob" "waiter" "plain:b".

Definition two_users : Store :=
  set_user (insert 2 bob) (set_user (insert 1 alice) empty_store).

Definition garbled_shift : Request :=
  post [("employee", "Ann"); ("start", "tomorrow morning");
        ("end", "2024-01-01T17:00")].

Definition plain_reservation : Request :=
  post [("customer", "Smith"); ("size", "4"); ("at", "2024-02-01T19:00")].

(** ** Sessions: login, logout and the dashboard *)

(** [werkzeug.security.check_password_hash], which [User.check_password]
    calls with the stored hash and the submitted password. *)
Class PasswordCheck := {
  check_password_hash : string → string → bool;
}.

(** The [stats] dictionary of the dashboard, one count per table. *)
Record Stats := {
  stat_shifts : nat; stat_reservations : nat; stat_reports : nat;
  stat_hours : nat; stat_deposits : nat; stat_users : nat;
}.

(** What these three views answer with: their own templates, or one of the
    responses of the resource views. *)
Inductive Screen :=
| login_html
| dashboard_html (stats : Stats)
| plain (r : Response).

(** The answer to a request that may log a user in or out: the session
    afterwards, the flashed messages and the screen.  None of the three
    views writes to the store. *)
Record Answer := {
  session_after : option Z;
  notices : list Flash;
  screen : Screen;
}.

(** [User.query.filter_by(username=name).first()] *)
Definition first_by_username (name : string) (m : gmap Z User.t)
    : option (Z * User.t) :=
  head (filter (λ r, User.username r.2 = name) (query m)).

(** [User.check_password] *)
Definition check_password `{PasswordCheck} (u : User.t) (p : string) : bool :=
  check_password_hash (User.password_hash u) p.

Definition login `{PasswordCheck} (session : option Z) (request : Request)
    (st : Store) : Result Answer :=
  let failed :=
    {| session_after := session;
       notices := [("Falsche Zugangsdaten", "error")];
       screen := login_html |} in
  if decide (method request = POST) then
    username <- form_item request "username" ;;
    match first_by_username username (tbl_user st) with
    | Some u =>
        (* [u and u.check_password(...)]: the password is read only when a
           user was found *)
        password <- form_item request "password" ;;
        if check_password u.2 password then
          ret {| session_after := Some u.1; notices := [];
                 screen := plain (redirect "dashboard") |}
        else ret failed
    | None => ret failed
    end
  else
    ret {| session_after := session; notices := []; screen := login_html |}.

Definition logout (session : option Z) (request : Request) (st : Store)
    : Result Answer :=
  match session ≫= load_user st with
  | None => ret {| session_after := session; notices := [];
                   screen := plain unauthorized |}
  | Some _ => ret {| session_after := None; notices := [];
                     screen := plain (redirect "login") |}
  end.

(** [Model.query.count()] *)
Definition count {A} (m : gmap Z A) : nat := stdpp.base.size m.

Definition dashboard (session : option Z) (request : Request) (st : Store)
    : Result Answer :=
  match session ≫= load_user st with
  | None => ret {| session_after := session; notices := [];
                   screen := plain unauthorized |}
  | Some _ =>
      let stats :=
        {| stat_shifts := count (tbl_shift st);
           stat_reservations := count (tbl_reservation st);
           stat_reports := count (tbl_shift_report st);
           stat_hours := count (tbl_time_entry st);
           stat_deposits := count (tbl_clothing_deposit st);
           stat_users := count (tbl_user st) |} in
      ret {| session_after := session; notices := [];
             screen := dashboard_html stats |}
  end.

(** One request to one of the three: an exception leaves the session as it
    was. *)
Definition answer (view : option Z → Request → Store → Result Answer)
    (session : option Z) (request : Request) (st : Store) : Answer :=
  match view session request st with
  | inr a => a
  | inl e => {| session_after := session; notices := [];
                screen := plain (handle_exception e) |}
  end.

(** The check that goes with the reference runtime's hash. *)
Global Instance reference_check : PasswordCheck :=
  {| check_password_hash h p := bool_decide (h = Reference.password_hash p) |}.

(** ** Invariants and vocabulary of the further properties *)

(** No two user rows share a username. *)
Definition unique_usernames (m : gmap Z User.t) : Prop :=
  ∀ i j u v, m !! i = Some u → m !! j = Some v →
             User.username u = User.username v → i = j.

(** The delete view of each resource that has a create view, and the table
    key a create would be stored under. *)
Definition delete_view (op : CreateOp) (id : Z) : View :=
  match op with
  | create_shift => shifts_delete id
  | create_reservation => res_delete id
  | create_report => reports_delete id
  | create_time_entry => hours_delete id
  | create_deposit => deposit_delete id
  end.

Definition new_id (op : CreateOp) (st : Store) : Z :=
  match op with
  | create_shift => next_id (tbl_shift st)
  | create_reservation => next_id (tbl_reservation st)
  | create_report => next_id (tbl_shift_report st)
  | create_time_entry => next_id (tbl_time_entry st)
  | create_deposit => next_id (tbl_clothing_deposit st)
  end.

(** The store [st'] is [st] with one new row in the table of [op], stored
    under the table's next key. *)
Definition created (op : CreateOp) (st st' : Store) : Prop :=
  match op with
  | create_shift => ∃ x, st' = set_shift (add x) st
  | create_reservation => ∃ x, st' = set_reservation (add x) st
  | create_report => ∃ x, st' = set_shift_report (add x) st
  | create_time_entry => ∃ x, st' = set_time_entry (add x) st
  | create_deposit => ∃ x, st' = set_clothing_deposit (add x) st
  end.

(** The ids in use in the table of [op]. *)
Definition row_ids (op : CreateOp) (st : Store) : gset Z :=
  match op with
  | create_shift => dom (tbl_shift st)
  | create_reservation => dom (tbl_reservation st)
  | create_report => dom (tbl_shift_report st)
  | create_time_entry => dom (tbl_time_entry st)
  | create_deposit => dom (tbl_clothing_deposit st)
  end.

(** The dashboard count of the table of [op]. *)
Definition stat_of (op : CreateOp) (s : Stats) : nat :=
  match op with
  | create_shift => stat_shifts s
  | create_reservation => stat_reservations s
  | create_report => stat_reports s
  | create_time_entry => stat_hours s
  | create_deposit => stat_deposits s
  end.

(** The table [m'] is [m] without the row [id]: the id names no row any
    more and every other id names the row it did. *)
Definition row_removed {A} (id : Z) (m m' : gmap Z A) : Prop :=
  m' !! id = None ∧ ∀ j, j ≠ id → m' !! j = m !! j.

(** The table [m'] is [m] with the row [x] under the key [id], which was
    free, and every other id names the row it did. *)
Definition row_added {A} (id : Z) (x : A) (m m' : gmap Z A) : Prop :=
  m !! id = None ∧ m' !! id = Some x ∧ ∀ j, j ≠ id → m' !! j = m !! j.

(** ** Proof automation *)

(** Case analysis on the tests a view makes, in the order it makes them. *)
Ltac view_step :=
  match goal with
  | |- context [bool_decide ?P] => destruct (bool_decide_reflect P)
  | |- context [decide ?P] => destruct (decide P)
  | |- context [py_int ?s] => destruct (py_int s) eqn:?
  | |- context [py_float ?s] => destruct (py_float s) eqn:?
  | |- context [fromisoformat ?s] => destruct (fromisoformat s) eqn:?
  | |- context [username_taken ?n ?m] => destruct (username_taken n m) eqn:?
  | |- context [?m !! ?i] => destruct (m !! i) eqn:?
  end; simpl in *; simplify_eq.

Ltac unfold_views :=
  unfold team, shifts, shifts_delete, reservations, res_delete, reports,
    reports_delete, hours, hours_delete, deposit, deposit_toggle,
    deposit_delete, users, users_delete, login_required, role_required,
    form_datetime, form_int, form_int_or_2, form_float_or_0, form_item,
    get_or_404, storable, the_user, of_parse, add_user, bind, ret, raise.

(** Time-entry requests of the manager that fail: a start that is no
    timestamp; a user id of 2^63. *)
Definition garbled_hours : Request :=
  post [("user_id", "3"); ("start", "yesterday");
        ("end", "2024-01-01T17:00")].

Definition huge_hours : Request :=
  post [("user_id", "9223372036854775808"); ("start", "2024-01-01T09:00");
        ("end", "2024-01-01T17:00")].

(** The busy store after the manager has created the user [carl] with the
    role [chef]: user 4. *)
Definition with_chef : Store := (serve users (Some 1) chef_request busy).1.

(** ** Facts about the store *)

Lemma foldr_max_ge (l : list Z) (k : Z) : k ∈ l → k ≤ foldr Z.max 0 l.
Proof.
  induction l as [|x l IH]; intros Hk.
  - by apply not_elem_of_nil in Hk.
  - apply elem_of_cons in Hk as [->|Hk]; simpl; [lia|].
    specialize (IH Hk). lia.
Qed.

Lemma next_id_fresh {A} (m : gmap Z A) : m !! next_id m = None.
Proof.
  destruct (m !! next_id m) as [x|] eqn:Hx; [|done].
  apply elem_of_map_to_list in Hx.
  assert (next_id m ∈ (map_to_list m).*1) as Hin.
  { apply list_elem_of_fmap. by exists (next_id m, x). }
  apply foldr_max_ge in Hin. unfold next_id in Hin. lia.
Qed.

Lemma add_lookup {A} (x : A) (m : gmap Z A) : add x m !! next_id m = Some x.
Proof. unfold add. by rewrite lookup_insert_eq. Qed.

Lemma add_ne {A} (x : A) (m : gmap Z A) : add x m ≠ m.
Proof.
  intros Heq. pose proof (add_lookup x m) as Hl.
  rewrite Heq, next_id_fresh in Hl. done.
Qed.

(** ** Two sessions on the seeded store *)

(** The waiter records a day's hours and then sees exactly that entry. *)
Example waiter_records_hours :
  let st := (serve hours (Some 3)
               (post [("user_id", "3"); ("start", "2024-01-01T09:00");
                      ("end", "2024-01-01T17:00")]) seeded).1 in
  response (serve hours (Some 3) get st).2
  = render_template (hours_html [(1, own_entry)] [(3, waiter_row)]).
Proof. vm_compute. reflexivity. Qed.

(** The shift lead books two tables; the later one is listed first. *)
Example lead_books_tables :
  let early := post [("customer", "Smith"); ("size", "4");
                     ("at", "2024-02-01T19:00")] in
  let late := post [("customer", "Jones"); ("size", EmptyString);
                    ("at", "2024-02-03T20:30")] in
  let st := (serve reservations (Some 2) late
               (serve reservations (Some 2) early seeded).1).1 in
  response (serve reservations (Some 2) get st).2
  = render_template (reservations_html
      [(2, Reservation.mk "Jones" 2
             (DateTime.mk (Date.mk 2024 2 3) 20 30 0 0) EmptyString);
       (1, Reservation.mk "Smith" 4
             (DateTime.mk (Date.mk 2024 2 1) 19 0 0 0) EmptyString)]).
Proof. vm_compute. reflexivity. Qed.

(** ** Time entries: who may create and delete *)

Section TimeEntries.
Context `{Runtime}.

(** Running a view for a logged-in user whose row is in the store. *)
Lemma serve_logged_in (view : View) st me u request :
  tbl_user st !! me = Some u →
  serve view (Some me) request st =
    match view (Some (me, u)) request st with
    | inr r => r
    | inl e => (st, respond (handle_exception e))
    end.
Proof. intros Hu. unfold serve, load_user. simpl. by rewrite Hu. Qed.

(** C1, as the code has it: for a request whose user id is an integer, a
    waiter asking for another user's id is refused and nothing is stored,
    whatever the other fields; a waiter asking for the own id, a shift lead
    and a manager get the row stored under a fresh key, with the fields as
    submitted and every other row as it was, when start and end parse as
    timestamps and the user id is a 64-bit integer. *)
Theorem hours_create_by_role st me u request user_id :
  tbl_user st !! me = Some u →
  method request = POST →
  form_int request "user_id" = ret user_id →
  let out := serve hours (Some me) request st in
  (User.role u = "waiter" → user_id ≠ me →
     out = (st, flash_and "Kellner dürfen nur eigene Stunden eintragen."
                          (redirect "hours")))
  ∧ ((User.role u = "waiter" ∧ user_id = me)
     ∨ User.role u = "shift_lead" ∨ User.role u = "manager" →
     ∀ start end_,
       form_datetime request "start" = ret start →
       form_datetime request "end" = ret end_ →
       int64 user_id →
       let t := TimeEntry.mk (Some user_id) start end_
                  (form_get request "note" EmptyString) in
       let id := next_id (tbl_time_entry st) in
       response out.2 = redirect "hours" ∧ flashed out.2 = []
       ∧ tbl_time_entry st !! id = None
       ∧ tbl_time_entry out.1 !! id = Some t
       ∧ (∀ j, j ≠ id → tbl_time_entry out.1 !! j = tbl_time_entry st !! j)
       ∧ tbl_user out.1 = tbl_user st).
Proof.
  intros Hu Hm Hid out. subst out. rewrite (serve_logged_in _ _ _ _ _ Hu).
  unfold hours, login_required. rewrite Hm, Hid. simpl. split.
  - intros Hw Hne. rewrite bool_decide_eq_true_2; [done|]. by split.
  - intros Hrole start end_ Hs He Hfits.
    rewrite bool_decide_eq_false_2.
    + rewrite Hs, He. simpl. unfold storable.
      rewrite (decide_True _ _ Hfits).
      assert ((if decide (User.role u = "waiter") then true else true) = true)
        as -> by (by destruct (decide (User.role u = "waiter"))).
      simpl. unfold add. rewrite lookup_insert_eq.
      repeat split; try done; [apply next_id_fresh|].
      intros j Hj. by rewrite lookup_insert_ne.
    + intros [Hw Hne]. destruct Hrole as [[_ ?]|[Hr|Hr]]; [done|..];
        rewrite Hw in Hr; discriminate.
Qed.

(** Deleting an existing time entry removes it if and only if the actor is
    a shift lead or manager or the entry's user id is the actor's own;
    otherwise the store stays as it was and the actor is sent back to the
    hours list, with the notice when the role is one of the three. *)
Theorem hours_delete_by_owner_or_lead st me u request id t :
  tbl_user st !! me = Some u →
  method request = POST →
  tbl_time_entry st !! id = Some t →
  let allowed := User.role u = "shift_lead" ∨ User.role u = "manager"
                 ∨ TimeEntry.user_id t = Some me in
  let out := serve (hours_delete id) (Some me) request st in
  (allowed →
     out = (set_time_entry (delete id) st, respond (redirect "hours"))
     ∧ tbl_time_entry out.1 !! id = None)
  ∧ (¬ allowed →
     out.1 = st ∧ response out.2 = redirect "hours"
     ∧ (User.role u ∈ roles →
        out = (st, flash_and "Kellner dürfen nur eigene Einträge löschen."
                             (redirect "hours")))).
Proof.
  intros Hu _ Ht allowed out. subst allowed out.
  rewrite (serve_logged_in _ _ _ _ _ Hu).
  unfold hours_delete, login_required, get_or_404. rewrite Ht. simpl. split.
  - intros Hallowed.
    rewrite bool_decide_eq_false_2.
    + rewrite bool_decide_eq_true_2.
      * split; [done|]. simpl. apply lookup_delete_eq.
      * destruct Hallowed as [Hr|[Hr|Ho]]; [left; rewrite Hr|left; rewrite Hr|by right];
          set_solver.
    + intros [Hw Hne]. destruct Hallowed as [Hr|[Hr|Ho]]; [| |done];
        rewrite Hw in Hr; discriminate.
  - intros Hno.
    assert (TimeEntry.user_id t ≠ Some me) as Hne by (intros ?; apply Hno; auto).
    assert (¬ (User.role u ∈ ["shift_lead"; "manager"]
               ∨ TimeEntry.user_id t = Some me)) as Hno'.
    { intros [Hin|Ho]; [|done]. apply Hno.
      apply elem_of_cons in Hin as [->|Hin]; [by left|].
      apply elem_of_cons in Hin as [->|Hin]; [by right; left|].
      by apply not_elem_of_nil in Hin. }
    destruct (decide (User.role u = "waiter")) as [Hw|Hw].
    + rewrite bool_decide_eq_true_2 by done. done.
    + rewrite bool_decide_eq_false_2 by (intros [? _]; done).
      rewrite bool_decide_eq_false_2 by done. simpl.
      split; [done|]. split; [done|].
      intros Hin. exfalso. unfold roles in Hin.
      apply elem_of_cons in Hin as [Hr|Hin]; [done|].
      apply Hno. apply elem_of_cons in Hin as [->|Hin]; [by left|].
      apply elem_of_cons in Hin as [->|Hin]; [by right; left|].
      by apply not_elem_of_nil in Hin.
Qed.
End TimeEntries.

Lemma hours_create_by_role_witness :
  tbl_time_entry
    (serve hours (Some 3)
       (post [("user_id", "3"); ("start", "2024-01-01T09:00");
              ("end", "2024-01-01T17:00")]) seeded).1 !! 1
  = Some (TimeEntry.mk (Some 3) nine five EmptyString).
Proof.
  refine (proj1 (proj2 (proj2 (proj2 (proj2 (hours_create_by_role seeded 3
    waiter_row
    (post [("user_id", "3"); ("start", "2024-01-01T09:00");
           ("end", "2024-01-01T17:00")]) 3 _ _ _) _ nine five _ _ _))))).
  - vm_compute; reflexivity.
  - reflexivity.
  - vm_compute; reflexivity.
  - left. split; reflexivity.
  - vm_compute; reflexivity.
  - vm_compute; reflexivity.
  - unfold int64. lia.
Defined.

(** C1 as stated fails: the manager's request for an existing user ends in
    an internal server error and stores nothing when the start does not
    parse, and likewise when the user id is beyond 64 bits. *)
Lemma hours_create_can_fail_for_manager :
  serve hours (Some 1) garbled_hours seeded
  = (seeded, respond (internal_error ValueError))
  ∧ form_int garbled_hours "user_id" = ret 3
  ∧ serve hours (Some 1) huge_hours seeded
    = (seeded, respond (internal_error OverflowError))
  ∧ form_int huge_hours "user_id" = ret (2 ^ 63).
Proof. repeat split; vm_compute; reflexivity. Qed.

(** C2: the user [carl], stored with the role [chef], is neither owner of
    time entry 1 nor shift lead or manager; the delete request changes
    nothing and answers with the bare redirect to the hours list: no
    notice is flashed, where the waiter in the same place is told so.  The
    shift lead's request for the same entry removes it. *)
Theorem hours_delete_silent_for_other_role :
  User.role <$> tbl_user with_chef !! 4 = Some "chef"
  ∧ TimeEntry.user_id <$> tbl_time_entry with_chef !! 1 = Some (Some 3)
  ∧ serve (hours_delete 1) (Some 4) (post []) with_chef
    = (with_chef, {| flashed := []; response := redirect "hours" |})
  ∧ (serve (hours_delete 1) (Some 2) (post []) with_chef).2
    = respond (redirect "hours")
  ∧ tbl_time_entry (serve (hours_delete 1) (Some 2) (post []) with_chef).1 !! 1
    = None.
Proof. repeat split; vm_compute; reflexivity. Qed.

Lemma hours_delete_by_owner_or_lead_witness :
  serve (hours_delete 1) (Some 3) (post []) busy
  = (set_time_entry (delete 1) busy, respond (redirect "hours")).
Proof.
  refine (proj1 (proj1 (hours_delete_by_owner_or_lead busy 3 waiter_row
    (post []) 1 own_entry _ _ _) _)).
  - vm_compute; reflexivity.
  - reflexivity.
  - vm_compute; reflexivity.
  - right; right; reflexivity.
Defined.

(** ** Manager-only operations *)

Section Manager.
Context `{Runtime}.

Lemma store_eta st :
  {| tbl_user := tbl_user st; tbl_shift := tbl_shift st;
     tbl_reservation := tbl_reservation st;
     tbl_shift_report := tbl_shift_report st;
     tbl_time_entry := tbl_time_entry st;
     tbl_clothing_deposit := tbl_clothing_deposit st |} = st.
Proof. by destruct st. Qed.

Lemma toggle_returned_twice d : toggle_returned (toggle_returned d) = d.
Proof. destruct d. unfold toggle_returned. simpl. by rewrite negb_involutive. Qed.

(** C5: deleting one's own user row is refused for every actor, manager
    included, and leaves the store as it was; a manager deleting any other
    existing user row, another manager's too, removes it. *)
Theorem users_delete_never_self st me u request :
  tbl_user st !! me = Some u →
  method request = POST →
  serve (users_delete me) (Some me) request st =
    (st, if decide (User.role u = "manager")
         then flash_and "Eigenen Account nicht löschen." (redirect "users")
         else flash_and "Keine Berechtigung." (redirect "dashboard"))
  ∧ (User.role u = "manager" →
     ∀ id v, id ≠ me → tbl_user st !! id = Some v →
       serve (users_delete id) (Some me) request st =
         (set_user (delete id) st, respond (redirect "users"))
       ∧ tbl_user (set_user (delete id) st) !! id = None).
Proof.
  intros Hu _. split.
  - rewrite (serve_logged_in _ _ _ _ _ Hu).
    unfold users_delete, login_required, role_required.
    destruct (decide (User.role u = "manager")) as [Hr|Hr].
    + rewrite bool_decide_eq_true_2 by (rewrite Hr; set_solver).
      simpl. by rewrite decide_True.
    + rewrite bool_decide_eq_false_2; [done|].
      intros Hin. apply list_elem_of_singleton in Hin. done.
  - intros Hr id v Hne Hv. rewrite (serve_logged_in _ _ _ _ _ Hu).
    unfold users_delete, login_required, role_required, get_or_404.
    rewrite bool_decide_eq_true_2 by (rewrite Hr; set_solver).
    simpl. rewrite decide_False by done. rewrite Hv. simpl.
    split; [done|]. apply lookup_delete_eq.
Qed.

(** C10: toggling an existing clothing deposit twice brings its returned
    flag, and with it the whole store, back to where it was; the toggle
    takes effect only for a manager, any other role is refused and nothing
    changes. *)
Theorem deposit_toggle_twice st me u request id d :
  tbl_user st !! me = Some u →
  method request = POST →
  tbl_clothing_deposit st !! id = Some d →
  (User.role u = "manager" →
     let st1 := (serve (deposit_toggle id) (Some me) request st).1 in
     let st2 := (serve (deposit_toggle id) (Some me) request st1).1 in
     ClothingDeposit.returned <$> tbl_clothing_deposit st1 !! id
       = Some (negb (ClothingDeposit.returned d))
     ∧ ClothingDeposit.returned <$> tbl_clothing_deposit st2 !! id
       = Some (ClothingDeposit.returned d)
     ∧ st2 = st)
  ∧ (User.role u ≠ "manager" →
     serve (deposit_toggle id) (Some me) request st =
       (st, flash_and "Keine Berechtigung." (redirect "dashboard"))).
Proof.
  intros Hu _ Hd. split.
  - intros Hr.
    assert (serve (deposit_toggle id) (Some me) request st =
            (set_clothing_deposit (insert id (toggle_returned d)) st,
             respond (redirect "deposit"))) as E1.
    { rewrite (serve_logged_in _ _ _ _ _ Hu).
      unfold deposit_toggle, login_required, role_required, get_or_404.
      rewrite bool_decide_eq_true_2 by (rewrite Hr; set_solver).
      by rewrite Hd. }
    rewrite E1. simpl.
    set (st1 := set_clothing_deposit (insert id (toggle_returned d)) st).
    assert (serve (deposit_toggle id) (Some me) request st1 =
            (set_clothing_deposit
               (insert id (toggle_returned (toggle_returned d))) st1,
             respond (redirect "deposit"))) as E2.
    { rewrite (serve_logged_in _ st1 me u) by done.
      unfold deposit_toggle, login_required, role_required, get_or_404.
      rewrite bool_decide_eq_true_2 by (rewrite Hr; set_solver).
      subst st1. simpl. by rewrite lookup_insert_eq. }
    rewrite E2. subst st1. simpl.
    rewrite toggle_returned_twice, !lookup_insert_eq.
    split; [done|]. split; [done|].
    unfold set_clothing_deposit. simpl.
    rewrite insert_insert_eq, (insert_id _ _ _ Hd). apply store_eta.
  - intros Hr. rewrite (serve_logged_in _ _ _ _ _ Hu).
    unfold deposit_toggle, login_required, role_required.
    rewrite bool_decide_eq_false_2; [done|].
    intros Hin. apply list_elem_of_singleton in Hin. done.
Qed.
End Manager.

Lemma users_delete_never_self_witness :
  serve (users_delete 1) (Some 1) (post []) seeded =
    (seeded, flash_and "Eigenen Account nicht löschen." (redirect "users")).
Proof.
  refine (proj1 (users_delete_never_self seeded 1 admin_row (post []) _ _)).
  - vm_compute; reflexivity.
  - reflexivity.
Defined.

Lemma deposit_toggle_twice_witness :
  (serve (deposit_toggle 1) (Some 1) (post [])
     (serve (deposit_toggle 1) (Some 1) (post []) busy).1).1 = busy.
Proof.
  refine (proj2 (proj2 (proj1 (deposit_toggle_twice busy 1 admin_row (post [])
    1 apron _ _ _) _))).
  - vm_compute; reflexivity.
  - reflexivity.
  - vm_compute; reflexivity.
  - reflexivity.
Defined.

(** ** What the create views store *)

Section Creation.
Context `{Runtime}.

(** A manager's user-create request with a free username stores the role
    exactly as the form gives it, [waiter] when the form has none. *)
Lemma users_create_role_verbatim st me u request name password :
  tbl_user st !! me = Some u → User.role u = "manager" →
  method request = POST →
  form request !! "username" = Some name →
  form request !! "password" = Some password →
  username_taken name (tbl_user st) = false →
  serve users (Some me) request st =
    (set_user (insert (next_id (tbl_user st))
                 (User.mk name (form_get request "full_name" EmptyString)
                          (form_get request "role" "waiter")
                          (generate_password_hash password))) st,
     respond (redirect "users")).
Proof.
  intros Hu Hr Hm Hn Hp Hfree. rewrite (serve_logged_in _ _ _ _ _ Hu).
  unfold users, login_required, role_required.
  rewrite bool_decide_eq_true_2 by (rewrite Hr; set_solver).
  rewrite Hm. unfold form_item. rewrite Hn, Hp. simpl.
  unfold add_user. simpl. by rewrite Hfree.
Qed.

(** A shift report's lead is the actor, whose row is in the store. *)
Lemma reports_create_lead_is_actor st me u request st' o :
  tbl_user st !! me = Some u → method request = POST →
  serve reports (Some me) request st = (st', o) → st' ≠ st →
  ∃ rep, st' = set_shift_report (insert (next_id (tbl_shift_report st)) rep) st
         ∧ ShiftReport.lead_id rep = Some me
         ∧ is_Some (tbl_user st' !! me).
Proof.
  intros Hu Hm Hs Hne. rewrite (serve_logged_in _ _ _ _ _ Hu) in Hs.
  unfold reports, login_required, role_required in Hs.
  case_bool_decide; [|cbv [ret] in Hs; congruence].
  rewrite Hm in Hs. simpl in Hs.
  destruct (form_datetime request "date") as [e|date]; simpl in Hs;
    [congruence|].
  destruct (form_float_or_0 request "revenue") as [e|rev]; simpl in Hs;
    [congruence|].
  cbv [ret] in Hs. simplify_eq. eexists. split; [done|]. simpl. by rewrite Hu.
Qed.

(** The numeric defaults that are taken: an empty party size is 2; revenue
    and amount are 0 when the field is missing or empty. *)
Lemma form_int_or_2_blank request :
  form request !! "size" = Some EmptyString →
  form_int_or_2 request "size" = ret 2.
Proof. intros Hs. unfold form_int_or_2, form_item. by rewrite Hs. Qed.


(** A missing party size is no default: the lookup raises. *)
Lemma form_int_or_2_absent request :
  form request !! "size" = None →
  form_int_or_2 request "size" = raise (BadRequestKeyError "size").
Proof. intros Hs. unfold form_int_or_2, form_item. by rewrite Hs. Qed.
End Creation.

(** C3: every user of the seeded store has one of the three roles, yet the
    manager's user-create request with role [chef] stores a user whose role
    is none of them. *)
Theorem users_create_stores_any_role :
  map_Forall (λ _ u, User.role u ∈ roles) (tbl_user seeded)
  ∧ ∃ u, tbl_user (serve users (Some 1) chef_request seeded).1 !! 4 = Some u
         ∧ User.role u = "chef" ∧ User.role u ∉ roles.
Proof.
  split.
  - apply (bool_decide_unpack _). vm_compute. exact I.
  - eexists. split; [vm_compute; reflexivity|]. split; [reflexivity|].
    apply (bool_decide_unpack _). vm_compute. exact I.
Qed.

(** C4: the manager's time-entry and clothing-deposit requests for user id
    999, which names no user, each store a row that refers to it. *)
Theorem create_stores_dangling_user_id :
  tbl_user seeded !! 999 = None
  ∧ (let st' := (serve hours (Some 1) ghost_hours_request seeded).1 in
     tbl_user st' !! 999 = None
     ∧ TimeEntry.user_id <$> tbl_time_entry st' !! 1 = Some (Some 999))
  ∧ (let st' := (serve deposit (Some 1) ghost_deposit_request seeded).1 in
     tbl_user st' !! 999 = None
     ∧ ClothingDeposit.user_id <$> tbl_clothing_deposit st' !! 1
       = Some (Some 999)).
Proof. repeat split; vm_compute; reflexivity. Qed.

(** C7: a shift lead's reservation request that has no size field is
    answered with HTTP 400 and stores nothing; no party size of 2 is
    filled in. *)
Theorem reservations_create_without_size :
  form sizeless_reservation !! "size" = None
  ∧ serve reservations (Some 2) sizeless_reservation seeded
    = (seeded, respond (http_error 400)).
Proof. split; vm_compute; reflexivity. Qed.

(** ** Ordering *)

Lemma lex_leb_total a b : lex_leb a b = true ∨ lex_leb b a = true.
Proof.
  revert b. induction a as [|x a IH]; intros [|y b]; simpl; auto.
  destruct (Z.ltb_spec x y); simpl; [by left|].
  destruct (Z.ltb_spec y x); simpl; [by right|].
  assert (x = y) as -> by lia. rewrite Z.eqb_refl. simpl. apply IH.
Qed.

Lemma lex_leb_trans a b c :
  lex_leb a b = true → lex_leb b c = true → lex_leb a c = true.
Proof.
  revert b c. induction a as [|x a IH]; intros [|y b] [|z c]; simpl; auto;
    try discriminate.
  intros Hab Hbc.
  apply orb_true_iff in Hab as [Hab|Hab]; apply orb_true_iff in Hbc as [Hbc|Hbc];
    repeat match goal with
    | H : (_ <? _) = true |- _ => apply Z.ltb_lt in H
    | H : _ && _ = true |- _ => apply andb_true_iff in H as [? ?]
    | H : (_ =? _) = true |- _ => apply Z.eqb_eq in H
    end; subst; apply orb_true_iff.
  - left. apply Z.ltb_lt. lia.
  - left. by apply Z.ltb_lt.
  - left. by apply Z.ltb_lt.
  - right. rewrite Z.eqb_refl. simpl. eauto.
Qed.

Global Instance lex_le_total : Total lex_le.
Proof.
  intros a b. unfold lex_le.
  destruct (lex_leb_total a b) as [E|E]; rewrite E; [left|right]; exact I.
Qed.

Global Instance lex_le_trans : Transitive lex_le.
Proof.
  intros a b c Hab Hbc. unfold lex_le in *.
  apply Is_true_true in Hab, Hbc. apply Is_true_true. eauto using lex_leb_trans.
Qed.

Global Instance asc_total {A} (key : A → list Z) : Total (asc key).
Proof. intros a b. apply (total lex_le). Qed.
Global Instance asc_trans {A} (key : A → list Z) : Transitive (asc key).
Proof. intros a b c Hab Hbc. unfold asc in *. by etrans. Qed.
Global Instance desc_total {A} (key : A → list Z) : Total (desc key).
Proof. intros a b. apply (total lex_le). Qed.
Global Instance desc_trans {A} (key : A → list Z) : Transitive (desc key).
Proof. intros a b c Hab Hbc. unfold desc in *. by etrans. Qed.

Global Instance then_by_total {A} (R1 R2 : relation A)
  `{∀ x y, Decision (R1 x y)} `{!Total R1, !Total R2} :
  Total (then_by R1 R2).
Proof.
  intros a b. unfold then_by.
  destruct (decide (R1 a b)) as [Hab|Hab], (decide (R1 b a)) as [Hba|Hba].
  - destruct (total R2 a b); [left|right]; auto.
  - left. split; [done|]. intros; done.
  - right. split; [done|]. intros; done.
  - destruct (total R1 a b); done.
Qed.

Global Instance then_by_trans {A} (R1 R2 : relation A)
  `{!Transitive R1, !Transitive R2} : Transitive (then_by R1 R2).
Proof.
  intros a b c [Hab Hab'] [Hbc Hbc']. split; [by etrans|].
  intros Hca. etrans; [apply Hab'|apply Hbc']; by etrans.
Qed.

Lemma order_by_ordered {A} (R : relation (Z * A)) `{∀ x y, Decision (R x y)}
    `{!Transitive R, !Total R} (rows : list (Z * A)) :
  ordered R rows (order_by R rows).
Proof.
  split; [apply merge_sort_Permutation|by apply StronglySorted_merge_sort].
Qed.

Section Listings.
Context `{Runtime}.

(** C9, as the code has it: every listing is ordered.  Shifts and time
    entries by start, reservations by time, reports and deposits by date,
    all descending; the team list by role descending, then username
    ascending; the users list and the user pick-lists of the hours and
    deposit pages by username ascending.  A waiter's hours page lists the
    waiter's own entries, and the waiter alone as pick-list. *)
Theorem listings_ordered st me u request :
  tbl_user st !! me = Some u →
  method request = GET →
  let page view := response (serve view (Some me) request st).2 in
  (∃ people,
     page team = render_template (team_html people)
     ∧ ordered (then_by (desc (text_key ∘ User.role))
                        (asc (text_key ∘ User.username)))
               (query (tbl_user st)) people)
  ∧ (∃ data,
       page shifts = render_template (shifts_html data)
       ∧ ordered (desc (DateTime.key ∘ Shift.start))
                 (query (tbl_shift st)) data)
  ∧ (User.role u ∈ ["shift_lead"; "manager"] →
     (∃ data,
        page reservations = render_template (reservations_html data)
        ∧ ordered (desc (DateTime.key ∘ Reservation.at_))
                  (query (tbl_reservation st)) data)
     ∧ (∃ data,
          page reports = render_template (reports_html data)
          ∧ ordered (desc (Date.key ∘ ShiftReport.date))
                    (query (tbl_shift_report st)) data))
  ∧ (∃ data users,
       page hours = render_template (hours_html data users)
       ∧ if decide (User.role u = "waiter") then
           ordered (desc (DateTime.key ∘ TimeEntry.start))
                   (filter (λ r, TimeEntry.user_id r.2 = Some me)
                           (query (tbl_time_entry st))) data
           ∧ users = [(me, u)]
         else
           ordered (desc (DateTime.key ∘ TimeEntry.start))
                   (query (tbl_time_entry st)) data
           ∧ ordered (asc (text_key ∘ User.username))
                     (query (tbl_user st)) users)
  ∧ (User.role u = "manager" →
     (∃ data users,
        page deposit = render_template (deposit_html data users)
        ∧ ordered (desc (Date.key ∘ ClothingDeposit.date))
                  (query (tbl_clothing_deposit st)) data
        ∧ ordered (asc (text_key ∘ User.username))
                  (query (tbl_user st)) users)
     ∧ (∃ data,
          page users = render_template (users_html data)
          ∧ ordered (asc (text_key ∘ User.username))
                    (query (tbl_user st)) data)).
Proof.
  intros Hu Hm page. subst page. simpl.
  rewrite !(serve_logged_in _ _ _ _ _ Hu).
  unfold team, shifts, reservations, reports, hours, deposit, users,
    login_required, role_required.
  rewrite Hm. simpl.
  split; [eexists; split; [done|apply order_by_ordered; apply _]|].
  split; [eexists; split; [done|apply order_by_ordered; apply _]|].
  split.
  { intros Hr. rewrite bool_decide_eq_true_2 by done. simpl.
    split; eexists; split; try done; apply order_by_ordered; apply _. }
  split.
  { destruct (decide (User.role u = "waiter")); simpl;
      do 2 eexists; split; try done; split;
      first [done | apply order_by_ordered; apply _]. }
  intros Hr. rewrite bool_decide_eq_true_2 by (rewrite Hr; set_solver). simpl.
  split; [do 2 eexists; split; [done|split; apply order_by_ordered; apply _]|].
  eexists; split; [done|apply order_by_ordered; apply _].
Qed.
End Listings.

Lemma listings_ordered_witness :
  ∃ data,
    response (serve users (Some 1) get seeded).2
      = render_template (users_html data)
    ∧ ordered (asc (text_key ∘ User.username)) (query (tbl_user seeded)) data.
Proof.
  refine (proj2 (proj2 (proj2 (proj2 (proj2
    (listings_ordered seeded 1 admin_row get _ _)))) _)).
  - vm_compute; reflexivity.
  - reflexivity.
  - reflexivity.
Defined.

(** C9 as stated fails on the users list: with the manager [alice] and the
    waiter [bob] it shows [alice] first, while role descending puts the
    waiter first. *)
Lemma users_list_not_by_role :
  response (serve users (Some 1) get two_users).2
    = render_template (users_html [(1, alice); (2, bob)])
  ∧ ¬ StronglySorted (then_by (desc (text_key ∘ User.role))
                              (asc (text_key ∘ User.username)))
        [(1, alice); (2, bob)]
  ∧ response (serve team (Some 1) get two_users).2
    = render_template (team_html [(2, bob); (1, alice)]).
Proof.
  split; [vm_compute; reflexivity|]. split; [|vm_compute; reflexivity].
  apply (bool_decide_unpack _). vm_compute. exact I.
Qed.

(** ** Unparseable timestamps *)

Lemma waiter_neither_lead_nor_manager (role : string) :
  role = "waiter" → role ∈ ["shift_lead"; "manager"] → False.
Proof.
  intros -> Hin. apply (bool_decide_pack _) in Hin. vm_compute in Hin. done.
Qed.

Section Timestamps.
Context `{Runtime}.

(** C6, as the code has it: a create request with a timestamp field that
    does not parse stores nothing.  The actor is refused by the access
    check, or the request ends in an error page; an actor the policy lets
    through always gets the error page, never a notice and a redirect. *)
Theorem unparseable_timestamp_is_error st session request op k :
  method request = POST →
  k ∈ timestamp_fields op →
  unparseable request k →
  let out := serve (create_view op) session request st in
  out.1 = st
  ∧ (response out.2 = unauthorized ∨ notice_and_redirect out.2
     ∨ error_page out.2)
  ∧ (∀ me u,
       session = Some me → tbl_user st !! me = Some u →
       (∀ owner, owner_of (as_operation op) request st = Some owner →
                 spec_authorize (User.role u) me (as_operation op) owner = true) →
       error_page out.2).
Proof.
  intros Hm Hk (s & Hs & Hbad) out. subst out.
  unfold serve, load_user.
  destruct session as [me|]; simpl;
    [destruct (tbl_user st !! me) as [u|] eqn:Hu; simpl|].
  - destruct op; simpl in Hk;
      repeat (apply elem_of_cons in Hk as [->|Hk]);
      try (by apply not_elem_of_nil in Hk);
      simpl; unfold_views; rewrite Hm; simpl;
      repeat (first [rewrite Hs | rewrite Hbad | view_step]; simpl).
    all: (split; [done|]).
    all: unfold notice_and_redirect, error_page; simpl.
    all: split;
      [first [right; left; split; [done|by eauto]
             |right; right; split; [done|by eauto]]|].
    all: intros me0 u0 ? Hu0 Hauth; simplify_eq.
    all: try (split; [done|by eauto]).
    all: exfalso; specialize (Hauth _ eq_refl); simpl in Hauth.
    all: repeat match goal with
           | H : bool_decide _ = true |- _ => apply bool_decide_eq_true in H
           | H : _ || _ = true |- _ => apply orb_true_iff in H as [H|H]
           | H : _ && _ = true |- _ => apply andb_true_iff in H as [? H]
           end.
    all: try done.
    all: try (destruct_and?; simplify_eq; congruence).
    all: destruct_and?; eauto using waiter_neither_lead_nor_manager.
    match goal with
    | Hn : _ ∉ _ |- _ => apply Hn; rewrite Hauth; by apply list_elem_of_singleton
    end.
  - destruct op; simpl; unfold_views; simpl.
    all: split; [done|]; split; [by left|]; intros; simplify_eq.
  - destruct op; simpl; unfold_views; simpl.
    all: split; [done|]; split; [by left|]; intros; simplify_eq.
Qed.
End Timestamps.

Lemma unparseable_timestamp_is_error_witness :
  error_page (serve shifts (Some 1) garbled_shift seeded).2.
Proof.
  refine (proj2 (proj2 (unparseable_timestamp_is_error seeded (Some 1)
    garbled_shift create_shift "start" _ _ _)) 1 admin_row _ _ _).
  - reflexivity.
  - apply list_elem_of_here.
  - exists "tomorrow morning". split; vm_compute; reflexivity.
  - reflexivity.
  - vm_compute; reflexivity.
  - intros owner Ho. vm_compute. reflexivity.
Defined.

(** C6 as stated fails: the manager's shift request whose start does not
    parse ends in the internal server error of the uncaught [ValueError],
    with no notice and no redirect. *)
Lemma garbled_shift_internal_error :
  unparseable garbled_shift "start"
  ∧ serve shifts (Some 1) garbled_shift seeded
    = (seeded, respond (internal_error ValueError))
  ∧ ¬ notice_and_redirect (serve shifts (Some 1) garbled_shift seeded).2.
Proof.
  split; [exists "tomorrow morning"; split; vm_compute; reflexivity|].
  split; [vm_compute; reflexivity|].
  intros [Hflash _]. apply Hflash. vm_compute. reflexivity.
Qed.

(** ** Refused operations *)

Lemma not_elem_of_singleton_list (role r : string) : role ≠ r → role ∉ [r].
Proof. intros Hne Hin. by apply list_elem_of_singleton in Hin. Qed.

Lemma only_waiter (role : string) :
  role ∈ roles → role ∉ ["shift_lead"; "manager"] → role = "waiter".
Proof.
  unfold roles. intros Hin Hnot.
  apply elem_of_cons in Hin as [?|Hin]; [done|]. by destruct Hnot.
Qed.

Section Denial.
Context `{Runtime}.

Lemma single_row_insert_delete st :
  (∀ x, single_row st (set_user (add x) st))
  ∧ (∀ x, single_row st (set_shift (add x) st))
  ∧ (∀ x, single_row st (set_reservation (add x) st))
  ∧ (∀ x, single_row st (set_shift_report (add x) st))
  ∧ (∀ x, single_row st (set_time_entry (add x) st))
  ∧ (∀ x, single_row st (set_clothing_deposit (add x) st))
  ∧ (∀ id, is_Some (tbl_user st !! id) → single_row st (set_user (delete id) st))
  ∧ (∀ id, is_Some (tbl_shift st !! id) →
           single_row st (set_shift (delete id) st))
  ∧ (∀ id, is_Some (tbl_reservation st !! id) →
           single_row st (set_reservation (delete id) st))
  ∧ (∀ id, is_Some (tbl_shift_report st !! id) →
           single_row st (set_shift_report (delete id) st))
  ∧ (∀ id, is_Some (tbl_time_entry st !! id) →
           single_row st (set_time_entry (delete id) st))
  ∧ (∀ id, is_Some (tbl_clothing_deposit st !! id) →
           single_row st (set_clothing_deposit (delete id) st)).
Proof.
  unfold single_row, row_step, add.
  repeat split; intros.
  - right; left. eexists. split; [left; by eexists|done].
  - do 2 right; left. eexists. split; [left; by eexists|done].
  - do 3 right; left. eexists. split; [left; by eexists|done].
  - do 4 right; left. eexists. split; [left; by eexists|done].
  - do 5 right; left. eexists. split; [left; by eexists|done].
  - do 6 right; left. eexists. split; [left; by eexists|done].
  - right; left. eexists. split; [right; by eexists|done].
  - do 2 right; left. eexists. split; [right; by eexists|done].
  - do 3 right; left. eexists. split; [right; by eexists|done].
  - do 4 right; left. eexists. split; [right; by eexists|done].
  - do 5 right; left. eexists. split; [right; by eexists|done].
  - do 6 right; left. eexists. split; [right; by eexists|done].
Qed.

Lemma single_row_toggle st id d :
  tbl_clothing_deposit st !! id = Some d →
  single_row st (set_clothing_deposit (insert id (toggle_returned d)) st).
Proof. intros Hd. unfold single_row. do 7 right. eauto. Qed.

(** Every request changes at most one row, whoever sends it. *)
Lemma serve_single_row st session request op :
  single_row st (serve (view_of op) session request st).1.
Proof.
  pose proof (single_row_insert_delete st)
    as (?&?&?&?&?&?&?&?&?&?&?&?).
  unfold serve, load_user.
  destruct session as [me|]; simpl;
    [destruct (tbl_user st !! me) as [u|] eqn:Hu; simpl|];
    destruct op; simpl; unfold_views; simpl;
    repeat view_step; simpl;
    first [by left | by eauto using single_row_toggle].
Qed.

(** C8, as the code has it: an operation the policy table refuses changes
    nothing in the store and flashes one error notice; the actor is sent
    back to the list page by the view's own checks (shift create, hours
    create and delete, a manager's self-delete) and to the dashboard by
    [role_required].  And whatever the request, at most one row is inserted,
    deleted or toggled. *)
Theorem denied_changes_nothing st me u request op owner :
  tbl_user st !! me = Some u →
  User.role u ∈ roles →
  method request = method_of op →
  owner_of op request st = Some owner →
  spec_authorize (User.role u) me op owner = false →
  (∃ msg, serve (view_of op) (Some me) request st
          = (st, flash_and msg (redirect (returned_to op (User.role u)))))
  ∧ (∀ session request' op',
       single_row st (serve (view_of op') session request' st).1).
Proof.
  intros Hu Hrole Hm Hown Hdeny. split; [|intros; apply serve_single_row].
  rewrite (serve_logged_in _ _ _ _ _ Hu).
  destruct op; simpl in *; try discriminate; unfold_views; rewrite ?Hm; simpl.
  all: repeat match goal with
       | H : bool_decide _ = false |- _ => apply bool_decide_eq_false in H
       | H : _ || _ = false |- _ => apply orb_false_iff in H as [Hlead H]
       | H : _ && _ = false |- _ => apply andb_false_iff in H
       end.
  all: try (rewrite bool_decide_eq_true_2 by done; by eexists).
  all: try (rewrite bool_decide_eq_false_2
              by first [done | by apply not_elem_of_singleton_list];
            by eexists).
  - (* hours, POST *)
    destruct (form request !! "user_id") as [s|]; [|discriminate].
    simpl in *. destruct (py_int s) as [user_id|]; [|discriminate].
    simpl in *. simplify_eq.
    pose proof (only_waiter _ Hrole Hlead) as Hw.
    destruct Hdeny as [Hd|Hd]; apply bool_decide_eq_false in Hd; [done|].
    rewrite bool_decide_eq_true_2; [by eexists|].
    split; [done|congruence].
  - (* hours_delete *)
    destruct (tbl_time_entry st !! id) as [t|]; [|discriminate].
    simpl in *. simplify_eq.
    pose proof (only_waiter _ Hrole Hlead) as Hw.
    rewrite bool_decide_eq_true_2; [by eexists|done].
  - (* users_delete *)
    destruct (decide (User.role u = "manager")) as [Hr|Hr].
    + rewrite bool_decide_eq_true_2 by (rewrite Hr; apply list_elem_of_here).
      destruct Hdeny as [Hd|Hd]; apply bool_decide_eq_false in Hd; [done|].
      rewrite decide_True; [by eexists|].
      destruct (decide (id = me)); [done|by destruct Hd].
    + rewrite bool_decide_eq_false_2
        by (by apply not_elem_of_singleton_list).
      by eexists.
Qed.
End Denial.

Lemma denied_changes_nothing_witness :
  ∃ msg, serve reservations (Some 3) plain_reservation seeded
         = (seeded, flash_and msg (redirect "dashboard")).
Proof.
  refine (proj1 (denied_changes_nothing seeded 3 waiter_row plain_reservation
    ReservationCreate None _ _ _ _ _)).
  - vm_compute; reflexivity.
  - apply (bool_decide_unpack _). vm_compute. exact I.
  - reflexivity.
  - reflexivity.
  - vm_compute; reflexivity.
Defined.

(** C8 as stated fails on where the caller is sent: the waiter's
    reservation request is refused by [role_required], which redirects to the
    dashboard, not to the reservations list. *)
Lemma refused_reservation_goes_to_dashboard :
  spec_authorize "waiter" 3 ReservationCreate None = false
  ∧ serve (view_of ReservationCreate) (Some 3) plain_reservation seeded
    = (seeded, flash_and "Keine Berechtigung." (redirect "dashboard"))
  ∧ redirect "dashboard" ≠ redirect (list_page ReservationCreate).
Proof.
  split; [vm_compute; reflexivity|]. split; [vm_compute; reflexivity|].
  simpl. discriminate.
Qed.

(** ** Anonymous requests *)

Section Anonymous.
Context `{Runtime}.

(** X1: a request without a session, or with the session of a user whose
    row is gone, is answered by the login redirect on every route but the
    login page, and changes nothing. *)
Theorem anonymous_is_turned_away st session request op :
  session ≫= load_user st = None →
  serve (view_of op) session request st = (st, respond unauthorized)
  ∧ answer logout session request st
    = {| session_after := session; notices := [];
         screen := plain unauthorized |}
  ∧ answer dashboard session request st
    = {| session_after := session; notices := [];
         screen := plain unauthorized |}.
Proof.
  intros Hnone. unfold serve, answer, logout, dashboard. rewrite Hnone.
  split; [|done]. by destruct op.
Qed.
End Anonymous.

Lemma anonymous_is_turned_away_witness :
  serve (view_of (UserDelete 1)) (Some 7) (post []) seeded
  = (seeded, respond unauthorized).
Proof.
  refine (proj1 (anonymous_is_turned_away seeded (Some 7) (post [])
    (UserDelete 1) _)).
  vm_compute; reflexivity.
Defined.

(** ** Which table a request writes *)

Section Frame.
Context `{Runtime}.

(** X2: a request writes no table but the one of its own resource; in
    particular deleting a user leaves the time entries, deposits and
    reports that refer to the user in place. *)
Theorem request_writes_own_table st session request op :
  let st' := (serve (view_of op) session request st).1 in
  (list_page op ≠ "users" → tbl_user st' = tbl_user st)
  ∧ (list_page op ≠ "shifts" → tbl_shift st' = tbl_shift st)
  ∧ (list_page op ≠ "reservations" →
     tbl_reservation st' = tbl_reservation st)
  ∧ (list_page op ≠ "reports" → tbl_shift_report st' = tbl_shift_report st)
  ∧ (list_page op ≠ "hours" → tbl_time_entry st' = tbl_time_entry st)
  ∧ (list_page op ≠ "deposit" →
     tbl_clothing_deposit st' = tbl_clothing_deposit st).
Proof.
  unfold serve, load_user.
  destruct session as [me|]; simpl;
    [destruct (tbl_user st !! me) as [u|] eqn:Hu; simpl|];
    destruct op; simpl; unfold_views; simpl;
    repeat view_step; simpl;
    repeat split; intros Hne; first [done | by destruct Hne].
Qed.
End Frame.

(** ** Usernames *)

Lemma username_taken_spec (name : string) (m : gmap Z User.t) :
  username_taken name m = true ↔
  ∃ i u, m !! i = Some u ∧ User.username u = name.
Proof.
  unfold username_taken, query. rewrite bool_decide_eq_true, Exists_exists.
  split.
  - intros ([i u] & Hin & Hname). apply elem_of_map_to_list in Hin. eauto.
  - intros (i & u & Hin & Hname). exists (i, u).
    split; [by apply elem_of_map_to_list|done].
Qed.

Lemma username_free_spec (name : string) (m : gmap Z User.t) :
  username_taken name m = false ↔
  ∀ i u, m !! i = Some u → User.username u ≠ name.
Proof.
  rewrite <- not_true_iff_false, username_taken_spec. split.
  - intros Hno i u Hu Hname. apply Hno. eauto.
  - intros Hall (i & u & Hu & Hname). by eapply Hall.
Qed.

Lemma unique_usernames_add (u : User.t) (m : gmap Z User.t) :
  unique_usernames m → username_taken (User.username u) m = false →
  unique_usernames (add u m).
Proof.
  intros Huniq Hfree0 i j v w. unfold add.
  pose proof (proj1 (username_free_spec _ _) Hfree0) as Hfree.
  rewrite !lookup_insert. pose proof (next_id_fresh m) as Hfresh.
  repeat case_decide; intros Hi Hj Heq; simplify_eq; try done.
  - exfalso. by eapply Hfree.
  - exfalso. by eapply Hfree.
  - by eapply Huniq.
Qed.

Lemma unique_usernames_delete (id : Z) (m : gmap Z User.t) :
  unique_usernames m → unique_usernames (delete id m).
Proof.
  intros Huniq i j v w Hi Hj. apply lookup_delete_Some in Hi as [_ Hi].
  apply lookup_delete_Some in Hj as [_ Hj]. by eapply Huniq.
Qed.

Section Usernames.
Context `{Runtime}.

Lemma db_init_unique st :
  unique_usernames (tbl_user st) → unique_usernames (tbl_user (db_init st)).
Proof.
  intros Huniq. unfold db_init, ensure.
  repeat (case_match; simpl); try done;
    repeat (apply unique_usernames_add; simpl; try done).
Qed.

(** X3: usernames stay unique: if no two user rows share a username
    before a request, none do after it, whatever the request and whoever
    sends it; provisioning keeps it so as well. *)
Theorem usernames_stay_unique st session request op :
  unique_usernames (tbl_user st) →
  unique_usernames (tbl_user (serve (view_of op) session request st).1)
  ∧ unique_usernames (tbl_user (db_init st)).
Proof.
  intros Huniq. split.
  - unfold serve, load_user.
    destruct session as [me|]; simpl;
      [destruct (tbl_user st !! me) as [u|] eqn:Hu; simpl|];
      destruct op; simpl; unfold_views; simpl;
      repeat view_step; simpl;
      first [done | by apply unique_usernames_delete
            | by apply unique_usernames_add].
  - by apply db_init_unique.
Qed.

(** X4: a user-create request whose username is taken stores nothing and
    ends in the internal server error of the integrity violation. *)
Theorem users_create_duplicate st me u request name password :
  tbl_user st !! me = Some u → User.role u = "manager" →
  method request = POST →
  form request !! "username" = Some name →
  form request !! "password" = Some password →
  (∃ i v, tbl_user st !! i = Some v ∧ User.username v = name) →
  serve users (Some me) request st
  = (st, respond (internal_error IntegrityError)).
Proof.
  intros Hu Hr Hm Hn Hp Htaken%username_taken_spec.
  rewrite (serve_logged_in _ _ _ _ _ Hu).
  unfold users, login_required, role_required.
  rewrite bool_decide_eq_true_2 by (rewrite Hr; apply list_elem_of_here).
  rewrite Hm. unfold form_item. rewrite Hn, Hp. simpl.
  unfold add_user. simpl. by rewrite Htaken.
Qed.
End Usernames.

Lemma unique_usernames_empty : unique_usernames (tbl_user empty_store).
Proof. intros i j u v Hi. simpl in Hi. by rewrite lookup_empty in Hi. Qed.

Lemma seeded_unique : unique_usernames (tbl_user seeded).
Proof. apply db_init_unique, unique_usernames_empty. Qed.

Lemma usernames_stay_unique_witness :
  unique_usernames (tbl_user seeded)
  ∧ unique_usernames
      (tbl_user (serve (view_of UserCreate) (Some 1) chef_request seeded).1).
Proof.
  assert (unique_usernames (tbl_user seeded)) as Hseeded.
  { exact (proj2 (usernames_stay_unique empty_store None get TeamList
                    unique_usernames_empty)). }
  split; [exact Hseeded|].
  exact (proj1 (usernames_stay_unique seeded (Some 1) chef_request UserCreate
                  Hseeded)).
Defined.

Lemma users_create_duplicate_witness :
  serve users (Some 1)
    (post [("username", "lead"); ("password", "x"); ("role", "manager")])
    seeded
  = (seeded, respond (internal_error IntegrityError)).
Proof.
  refine (users_create_duplicate seeded 1 admin_row _ "lead" "x" _ _ _ _ _ _).
  - vm_compute; reflexivity.
  - reflexivity.
  - reflexivity.
  - vm_compute; reflexivity.
  - vm_compute; reflexivity.
  - exists 2, lead_row. split; [vm_compute; reflexivity|reflexivity].
Defined.

(** ** Provisioning *)

Section Provisioning.
Context `{Runtime}.

Lemma ensure_lookup u p role name st id v :
  tbl_user st !! id = Some v →
  tbl_user (ensure u p role name st) !! id = Some v.
Proof.
  intros Hv. unfold ensure. case_match; [done|]. simpl. unfold add.
  rewrite lookup_insert_ne; [done|]. intros <-.
  by rewrite next_id_fresh in Hv.
Qed.

Lemma ensure_keeps_taken u p role name other st :
  username_taken other (tbl_user st) = true →
  username_taken other (tbl_user (ensure u p role name st)) = true.
Proof.
  rewrite !username_taken_spec. intros (i & v & Hv & Hname).
  exists i, v. split; [by apply ensure_lookup|done].
Qed.

Lemma ensure_taken u p role name st :
  username_taken u (tbl_user (ensure u p role name st)) = true.
Proof.
  unfold ensure. case_match; [done|]. simpl.
  apply username_taken_spec. eexists _, _. split; [apply add_lookup|done].
Qed.

Lemma ensure_when_taken u p role name st :
  username_taken u (tbl_user st) = true → ensure u p role name st = st.
Proof. intros Ht. unfold ensure. by rewrite Ht. Qed.

Lemma ensure_other_tables u p role name st :
  let st' := ensure u p role name st in
  tbl_shift st' = tbl_shift st ∧ tbl_reservation st' = tbl_reservation st
  ∧ tbl_shift_report st' = tbl_shift_report st
  ∧ tbl_time_entry st' = tbl_time_entry st
  ∧ tbl_clothing_deposit st' = tbl_clothing_deposit st.
Proof. unfold ensure. by case_match. Qed.

(** X5: provisioning is idempotent and only adds: a second run changes
    nothing, every user row that was there stays as it was, the three
    account names exist afterwards, and no other table is written. *)
Theorem db_init_idempotent st :
  db_init (db_init st) = db_init st
  ∧ (∀ id u, tbl_user st !! id = Some u →
             tbl_user (db_init st) !! id = Some u)
  ∧ (∀ name, name ∈ ["admin"; "lead"; "waiter"] →
             username_taken name (tbl_user (db_init st)) = true)
  ∧ (tbl_shift (db_init st) = tbl_shift st
     ∧ tbl_reservation (db_init st) = tbl_reservation st
     ∧ tbl_shift_report (db_init st) = tbl_shift_report st
     ∧ tbl_time_entry (db_init st) = tbl_time_entry st
     ∧ tbl_clothing_deposit (db_init st) = tbl_clothing_deposit st).
Proof.
  assert (∀ name, name ∈ ["admin"; "lead"; "waiter"] →
            username_taken name (tbl_user (db_init st)) = true) as Hnames.
  { intros name Hin. unfold db_init.
    repeat (apply elem_of_cons in Hin as [->|Hin]).
    - do 2 apply ensure_keeps_taken. apply ensure_taken.
    - apply ensure_keeps_taken. apply ensure_taken.
    - apply ensure_taken.
    - by apply not_elem_of_nil in Hin. }
  split; [|split; [|split; [done|]]].
  - unfold db_init at 1.
    rewrite (ensure_when_taken "admin") by (apply Hnames; repeat constructor).
    rewrite (ensure_when_taken "lead") by (apply Hnames; repeat constructor).
    by rewrite (ensure_when_taken "waiter")
      by (apply Hnames; repeat constructor).
  - intros id u Hu. unfold db_init. by do 3 apply ensure_lookup.
  - unfold db_init.
    repeat match goal with
    | |- context [ensure ?a ?b ?c ?d ?s] =>
        lazymatch s with
        | context [ensure] => fail
        | _ => destruct (ensure_other_tables a b c d s) as (?&?&?&?&?);
               generalize dependent (ensure a b c d s); intros
        end
    end.
    repeat split; congruence.
Qed.
End Provisioning.

(** ** Logging in and out *)

Lemma first_by_username_Some name (m : gmap Z User.t) i u :
  first_by_username name m = Some (i, u) →
  m !! i = Some u ∧ User.username u = name.
Proof.
  unfold first_by_username, query. intros Hhead.
  apply head_Some_elem_of in Hhead.
  apply list_elem_of_filter in Hhead as [Hname Hin].
  by apply elem_of_map_to_list in Hin.
Qed.

Lemma first_by_username_None name (m : gmap Z User.t) :
  first_by_username name m = None ↔
  ∀ i u, m !! i = Some u → User.username u ≠ name.
Proof.
  unfold first_by_username, query. rewrite head_None. split.
  - intros Hnil i u Hu Hname.
    assert ((i, u) ∈ filter (λ r : Z * User.t, User.username r.2 = name)
                            (map_to_list m)) as Hin.
    { apply list_elem_of_filter. split; [done|].
      by apply elem_of_map_to_list. }
    rewrite Hnil in Hin. by apply not_elem_of_nil in Hin.
  - intros Hall.
    destruct (filter _ (map_to_list m)) as [|[i u] l] eqn:Hl; [done|].
    assert ((i, u) ∈ filter (λ r : Z * User.t, User.username r.2 = name)
                            (map_to_list m)) as Hin
      by (rewrite Hl; apply list_elem_of_here).
    apply list_elem_of_filter in Hin as [Hname Hin].
    apply elem_of_map_to_list in Hin. by destruct (Hall i u).
Qed.

Lemma first_by_username_unique (m : gmap Z User.t) i u :
  unique_usernames m → m !! i = Some u →
  first_by_username (User.username u) m = Some (i, u).
Proof.
  intros Huniq Hu.
  destruct (first_by_username (User.username u) m) as [[j v]|] eqn:Hfirst.
  - apply first_by_username_Some in Hfirst as [Hv Hname].
    assert (j = i) as -> by (by eapply Huniq). by simplify_eq.
  - exfalso. by eapply (proj1 (first_by_username_None _ _) Hfirst).
Qed.

Section Login.
Context `{PasswordCheck}.

(** X6: logging in binds the session to the user the username names.  With
    unique usernames, a POST carrying a user's name and a password that
    checks against the stored hash opens the session of exactly that user
    and redirects to the dashboard; and whenever login redirects to the
    dashboard, the new session is that of a stored user with the submitted
    name whose hash the submitted password checks against. *)
Theorem login_binds_the_named_user st session request id u password :
  unique_usernames (tbl_user st) →
  tbl_user st !! id = Some u →
  method request = POST →
  form request !! "username" = Some (User.username u) →
  form request !! "password" = Some password →
  check_password u password = true →
  answer login session request st
  = {| session_after := Some id; notices := [];
       screen := plain (redirect "dashboard") |}
  ∧ (∀ session' request' st',
       screen (answer login session' request' st')
       = plain (redirect "dashboard") →
       ∃ id' u' name' password',
         session_after (answer login session' request' st') = Some id'
         ∧ tbl_user st' !! id' = Some u'
         ∧ form request' !! "username" = Some name'
         ∧ form request' !! "password" = Some password'
         ∧ User.username u' = name'
         ∧ check_password u' password' = true).
Proof.
  intros Huniq Hu Hm Hn Hp Hcheck. split.
  - unfold answer, login, form_item. rewrite Hm, Hn. simpl.
    rewrite (first_by_username_unique _ _ _ Huniq Hu). simpl.
    rewrite Hp. simpl. by rewrite Hcheck.
  - intros session' request' st'. unfold answer, login, form_item.
    destruct (decide (method request' = POST)); simpl; [|done].
    destruct (form request' !! "username") as [name'|] eqn:Hn'; simpl;
      [|done].
    destruct (first_by_username name' (tbl_user st')) as [[id' u']|]
      eqn:Hfirst; simpl; [|done].
    destruct (form request' !! "password") as [password'|] eqn:Hp'; simpl;
      [|done].
    destruct (check_password u' password') eqn:Hc; simpl; [|done].
    intros _. apply first_by_username_Some in Hfirst as [Hu' Hname'].
    by exists id', u', name', password'.
Qed.

(** X7: a failed login looks the same whether the username is unknown or
    the password wrong: when the submitted password checks against no user
    of the submitted name, the session stays as it was, the same one notice
    is flashed and the login page is shown again.  A missing username is
    HTTP 400; a missing password is HTTP 400 only when the username is
    known, and the ordinary failure otherwise. *)
Theorem login_failure_is_uniform st session request name :
  method request = POST →
  form request !! "username" = Some name →
  let failed :=
    {| session_after := session;
       notices := [("Falsche Zugangsdaten", "error")];
       screen := login_html |} in
  let bad_request :=
    {| session_after := session; notices := [];
       screen := plain (http_error 400) |} in
  (∀ password,
     form request !! "password" = Some password →
     (∀ i u, tbl_user st !! i = Some u → User.username u = name →
             check_password u password = false) →
     answer login session request st = failed)
  ∧ (form request !! "password" = None →
     answer login session request st
     = if username_taken name (tbl_user st) then bad_request else failed)
  ∧ (∀ request', method request' = POST →
       form request' !! "username" = None →
       answer login session request' st = bad_request).
Proof.
  intros Hm Hn failed bad_request. subst failed bad_request.
  split; [|split].
  - intros password Hp Hall. unfold answer, login, form_item.
    rewrite Hm, Hn. simpl.
    destruct (first_by_username name (tbl_user st)) as [[i u]|] eqn:Hfirst;
      simpl; [|done].
    apply first_by_username_Some in Hfirst as [Hu Hname].
    rewrite Hp. simpl. by rewrite (Hall i u Hu Hname).
  - intros Hp. unfold answer, login, form_item. rewrite Hm, Hn. simpl.
    destruct (first_by_username name (tbl_user st)) as [[i u]|] eqn:Hfirst;
      simpl.
    + apply first_by_username_Some in Hfirst as [Hu Hname].
      rewrite Hp. simpl.
      assert (username_taken name (tbl_user st) = true) as ->; [|done].
      apply username_taken_spec. eauto.
    + assert (username_taken name (tbl_user st) = false) as ->; [|done].
      apply username_free_spec. by apply first_by_username_None.
  - intros request' Hm' Hn'. unfold answer, login, form_item.
    by rewrite Hm', Hn'.
Qed.

(** X8: logging out ends the session for every route: after a logout no
    view but the login page answers with anything but the login
    redirect, and nothing is stored. *)
Theorem logout_ends_the_session `{Runtime} st session request request' op :
  let session' := session_after (answer logout session request st) in
  serve (view_of op) session' request' st = (st, respond unauthorized)
  ∧ (is_Some (session ≫= load_user st) →
     answer logout session request st
     = {| session_after := None; notices := [];
          screen := plain (redirect "login") |}).
Proof.
  unfold answer, logout.
  destruct (session ≫= load_user st) as [cu|] eqn:Hcu; simpl.
  - split; [|done]. unfold serve. simpl. by destruct op.
  - split; [|by intros [? ?]]. unfold serve. rewrite Hcu. by destruct op.
Qed.
End Login.

Section Accounts.
Context `{Runtime} `{PasswordCheck}.

Lemma login_opens st session request id u password :
  unique_usernames (tbl_user st) →
  tbl_user st !! id = Some u →
  method request = POST →
  form request !! "username" = Some (User.username u) →
  form request !! "password" = Some password →
  check_password u password = true →
  answer login session request st
  = {| session_after := Some id; notices := [];
       screen := plain (redirect "dashboard") |}.
Proof.
  intros Huniq Hu Hm Hn Hp Hcheck.
  unfold answer, login, form_item. rewrite Hm, Hn. simpl.
  rewrite (first_by_username_unique _ _ _ Huniq Hu). simpl.
  rewrite Hp. simpl. by rewrite Hcheck.
Qed.

(** X9: an account a manager creates can be used at once: when the hash
    check accepts the hash made of the same password, a login with the
    username and password of the create request opens the session of the
    new user, whose role is the one the create request named. *)
Theorem created_user_can_log_in st me u request name password
    session request' :
  (∀ p, check_password_hash (generate_password_hash p) p = true) →
  unique_usernames (tbl_user st) →
  tbl_user st !! me = Some u → User.role u = "manager" →
  method request = POST →
  form request !! "username" = Some name →
  form request !! "password" = Some password →
  username_taken name (tbl_user st) = false →
  method request' = POST →
  form request' !! "username" = Some name →
  form request' !! "password" = Some password →
  let st' := (serve users (Some me) request st).1 in
  let id := next_id (tbl_user st) in
  answer login session request' st'
  = {| session_after := Some id; notices := [];
       screen := plain (redirect "dashboard") |}
  ∧ User.role <$> tbl_user st' !! id = Some (form_get request "role" "waiter")
  ∧ id ≠ me.
Proof.
  intros Hlaw Huniq Hu Hr Hm Hn Hp Hfree Hm' Hn' Hp' st' id.
  subst st' id.
  rewrite (users_create_role_verbatim _ _ _ _ _ _ Hu Hr Hm Hn Hp Hfree).
  simpl. split; [|split].
  - apply (login_opens _ _ _ (next_id (tbl_user st))
             (User.mk name (form_get request "full_name" EmptyString)
                      (form_get request "role" "waiter")
                      (generate_password_hash password)) password);
      try done.
    + by apply (unique_usernames_add _ _ Huniq).
    + apply lookup_insert_eq.
    + unfold check_password. simpl. apply Hlaw.
  - by rewrite lookup_insert_eq.
  - intros Heq. rewrite <- Heq in Hu. by rewrite next_id_fresh in Hu.
Qed.

(** X10: a user a manager deletes is locked out: the user's session is
    answered with the login redirect on every route, and, usernames being
    unique, a login with the user's name fails whatever the password. *)
Theorem deleted_user_is_locked_out st me u request id v session request'
    password op :
  unique_usernames (tbl_user st) →
  tbl_user st !! me = Some u → User.role u = "manager" →
  id ≠ me → tbl_user st !! id = Some v →
  method request' = POST →
  form request' !! "username" = Some (User.username v) →
  form request' !! "password" = Some password →
  let st' := (serve (users_delete id) (Some me) request st).1 in
  serve (view_of op) (Some id) request' st' = (st', respond unauthorized)
  ∧ answer login session request' st'
    = {| session_after := session;
         notices := [("Falsche Zugangsdaten", "error")];
         screen := login_html |}.
Proof.
  intros Huniq Hu Hr Hne Hv Hm' Hn' Hp' st'. subst st'.
  rewrite (serve_logged_in _ _ _ _ _ Hu).
  unfold users_delete, login_required, role_required, get_or_404.
  rewrite bool_decide_eq_true_2 by (rewrite Hr; apply list_elem_of_here).
  simpl. rewrite decide_False by done. rewrite Hv. simpl. split.
  - unfold serve, load_user. simpl. rewrite lookup_delete_eq. simpl.
    by destruct op.
  - unfold answer, login, form_item. rewrite Hm', Hn'. simpl.
    assert (first_by_username (User.username v) (delete id (tbl_user st))
            = None) as ->; [|done].
    apply first_by_username_None. intros i w Hw Hname.
    apply lookup_delete_Some in Hw as [Hi Hw].
    apply Hi. by eapply Huniq.
Qed.
End Accounts.

Lemma login_binds_the_named_user_witness :
  answer login None
    (post [("username", "admin"); ("password", "admin123")]) seeded
  = {| session_after := Some 1; notices := [];
       screen := plain (redirect "dashboard") |}.
Proof.
  refine (proj1 (login_binds_the_named_user seeded None _ 1 admin_row
    "admin123" seeded_unique _ _ _ _ _)); vm_compute; reflexivity.
Defined.

Lemma login_failure_is_uniform_witness :
  answer login None
    (post [("username", "admin"); ("password", "guess")]) seeded
  = answer login None
      (post [("username", "nobody"); ("password", "guess")]) seeded.
Proof.
  etrans; [|symmetry].
  - refine (proj1 (login_failure_is_uniform seeded None _ "admin" _ _)
      "guess" _ _).
    + reflexivity.
    + vm_compute; reflexivity.
    + vm_compute; reflexivity.
    + intros i u Hu Hname.
      assert (i = 1) as ->
        by (eapply seeded_unique; [exact Hu|by vm_compute|by rewrite Hname]).
      vm_compute in Hu. by simplify_eq.
  - refine (proj1 (login_failure_is_uniform seeded None _ "nobody" _ _)
      "guess" _ _).
    + reflexivity.
    + vm_compute; reflexivity.
    + vm_compute; reflexivity.
    + intros i u Hu Hname. exfalso.
      assert (username_taken "nobody" (tbl_user seeded) = true) as Ht
        by (apply username_taken_spec; eauto).
      vm_compute in Ht. discriminate.
Defined.

Lemma created_user_can_log_in_witness :
  answer login None (post [("username", "carl"); ("password", "secret")])
    (serve users (Some 1) chef_request seeded).1
  = {| session_after := Some 4; notices := [];
       screen := plain (redirect "dashboard") |}.
Proof.
  refine (proj1 (created_user_can_log_in seeded 1 admin_row chef_request
    "carl" "secret" None _ _ seeded_unique _ _ _ _ _ _ _ _ _)).
  - intros p. simpl. by apply bool_decide_eq_true_2.
  - vm_compute; reflexivity.
  - reflexivity.
  - reflexivity.
  - vm_compute; reflexivity.
  - vm_compute; reflexivity.
  - vm_compute; reflexivity.
  - reflexivity.
  - vm_compute; reflexivity.
  - vm_compute; reflexivity.
Defined.

Lemma deleted_user_is_locked_out_witness :
  serve (view_of TimeEntryList) (Some 3) get
    (serve (users_delete 3) (Some 1) (post []) seeded).1
  = ((serve (users_delete 3) (Some 1) (post []) seeded).1,
     respond unauthorized).
Proof.
  refine (proj1 (deleted_user_is_locked_out seeded 1 admin_row (post []) 3
    waiter_row None
    (post [("username", "waiter"); ("password", "waiter123")])
    "waiter123" TimeEntryList seeded_unique _ _ _ _ _ _ _)).
  - vm_compute; reflexivity.
  - reflexivity.
  - done.
  - vm_compute; reflexivity.
  - reflexivity.
  - vm_compute; reflexivity.
  - vm_compute; reflexivity.
Defined.

(** ** Deleting rows *)

Lemma row_removed_delete {A} (id : Z) (m : gmap Z A) :
  row_removed id m (delete id m).
Proof.
  split; [apply lookup_delete_eq|]. intros j Hj. by apply lookup_delete_ne.
Qed.

Section Deleting.
Context `{Runtime}.

(** X11: the plain delete views remove the row with the given id when it
    exists, leaving every other row of the table as it was, and store
    nothing when it does not: the answer is then HTTP 404 for an id that
    is a 64-bit integer and the internal server error of the overflow for
    one that is not.  Shifts, reservations and reports for a shift lead or
    manager, deposits (and the toggle) for a manager.  The time-entry and
    user deletes answer a missing id the same way, the first one for any
    role and before any ownership check. *)
Theorem delete_existing_or_not_found st me u request id :
  tbl_user st !! me = Some u →
  method request = POST →
  let missing :=
    (st, respond (if decide (int64 id) then http_error 404
                  else internal_error OverflowError)) in
  (User.role u ∈ ["shift_lead"; "manager"] →
     (let out := serve (shifts_delete id) (Some me) request st in
      match tbl_shift st !! id with
      | Some _ => out.2 = respond (redirect "shifts")
                  ∧ row_removed id (tbl_shift st) (tbl_shift out.1)
      | None => out = missing
      end)
     ∧ (let out := serve (res_delete id) (Some me) request st in
        match tbl_reservation st !! id with
        | Some _ => out.2 = respond (redirect "reservations")
                    ∧ row_removed id (tbl_reservation st)
                                  (tbl_reservation out.1)
        | None => out = missing
        end)
     ∧ (let out := serve (reports_delete id) (Some me) request st in
        match tbl_shift_report st !! id with
        | Some _ => out.2 = respond (redirect "reports")
                    ∧ row_removed id (tbl_shift_report st)
                                  (tbl_shift_report out.1)
        | None => out = missing
        end))
  ∧ (tbl_time_entry st !! id = None →
     serve (hours_delete id) (Some me) request st = missing)
  ∧ (User.role u = "manager" →
     (let out := serve (deposit_delete id) (Some me) request st in
      match tbl_clothing_deposit st !! id with
      | Some _ => out.2 = respond (redirect "deposit")
                  ∧ row_removed id (tbl_clothing_deposit st)
                                (tbl_clothing_deposit out.1)
      | None => out = missing
      end)
     ∧ (tbl_clothing_deposit st !! id = None →
        serve (deposit_toggle id) (Some me) request st = missing)
     ∧ (id ≠ me → tbl_user st !! id = None →
        serve (users_delete id) (Some me) request st = missing)).
Proof.
  intros Hu _ missing. subst missing.
  rewrite !(serve_logged_in _ _ _ _ _ Hu).
  unfold shifts_delete, res_delete, reports_delete, hours_delete,
    deposit_delete, deposit_toggle, users_delete, login_required,
    role_required, get_or_404.
  split; [|split].
  - intros Hr. rewrite bool_decide_eq_true_2 by done.
    repeat split.
    + destruct (tbl_shift st !! id);
        [by auto using row_removed_delete|by destruct (decide (int64 id))].
    + destruct (tbl_reservation st !! id);
        [by auto using row_removed_delete|by destruct (decide (int64 id))].
    + destruct (tbl_shift_report st !! id);
        [by auto using row_removed_delete|by destruct (decide (int64 id))].
  - intros Hnone. rewrite Hnone. by destruct (decide (int64 id)).
  - intros Hr.
    rewrite bool_decide_eq_true_2 by (rewrite Hr; apply list_elem_of_here).
    simpl. split; [|split].
    + destruct (tbl_clothing_deposit st !! id);
        [by auto using row_removed_delete|by destruct (decide (int64 id))].
    + intros Hnone. rewrite Hnone. by destruct (decide (int64 id)).
    + intros Hne Hnone. rewrite decide_False by done. rewrite Hnone.
      by destruct (decide (int64 id)).
Qed.
End Deleting.

Lemma delete_existing_or_not_found_witness :
  serve (hours_delete 5) (Some 3) (post []) busy
  = (busy, respond (http_error 404)).
Proof.
  refine (proj1 (proj2 (delete_existing_or_not_found busy 3 waiter_row
    (post []) 5 _ _)) _); vm_compute; reflexivity.
Defined.

(** ** Creating rows *)

Lemma delete_add {A} (x : A) (m : gmap Z A) : delete (next_id m) (add x m) = m.
Proof. unfold add. apply delete_insert_id, next_id_fresh. Qed.

Lemma dom_add {A} (x : A) (m : gmap Z A) :
  dom (add x m) = {[next_id m]} ∪ dom m.
Proof. unfold add. apply dom_insert_L. Qed.

Lemma next_id_not_in_dom {A} (m : gmap Z A) : next_id m ∉ dom m.
Proof. apply not_elem_of_dom, next_id_fresh. Qed.

Lemma count_add {A} (x : A) (m : gmap Z A) : count (add x m) = S (count m).
Proof. unfold count, add. apply map_size_insert_None, next_id_fresh. Qed.

Section Creating.
Context `{Runtime}.

(** A create view stores one new row or nothing. *)
Lemma create_cases st session request op :
  let st' := (serve (create_view op) session request st).1 in
  st' = st ∨ created op st st'.
Proof.
  unfold serve, load_user.
  destruct session as [me|]; simpl;
    [destruct (tbl_user st !! me) as [u|] eqn:Hu; simpl|];
    destruct op; simpl; unfold_views; simpl;
    repeat view_step; simpl;
    first [by left | right; by eexists].
Qed.

(** X12: a create never overwrites: when a create request changes the
    store, the row is stored under an id no row of the table had, the
    table's other rows stay, and the dashboard count of the resource is
    one higher than before for every logged-in user. *)
Theorem create_adds_one_row st session request op :
  let st' := (serve (create_view op) session request st).1 in
  st' ≠ st →
  created op st st'
  ∧ (new_id op st ∉ row_ids op st)
  ∧ row_ids op st' = {[new_id op st]} ∪ row_ids op st
  ∧ (∀ me request', is_Some (tbl_user st !! me) →
       ∃ s s',
         screen (answer dashboard (Some me) request' st) = dashboard_html s
         ∧ screen (answer dashboard (Some me) request' st')
           = dashboard_html s'
         ∧ stat_of op s' = S (stat_of op s)).
Proof.
  intros st' Hne. destruct (create_cases st session request op) as [?|Hc];
    [done|]. fold st' in Hc. clearbody st'. split; [done|].
  destruct op; simpl in *; destruct Hc as [x ->]; simpl.
  all: split; [apply next_id_not_in_dom|].
  all: split; [apply dom_add|].
  all: intros me request' [u Hu]; unfold answer, dashboard, load_user; simpl;
    rewrite Hu; simpl; do 2 eexists; split; [done|]; split; [done|]; simpl;
    apply count_add.
Qed.

(** X13: a create followed by the delete of the new id brings the store
    back: for a manager, deleting the row a create has just stored leaves
    exactly the store from before the create. *)
Theorem create_then_delete_restores st me u request request' op :
  tbl_user st !! me = Some u → User.role u = "manager" →
  let st' := (serve (create_view op) (Some me) request st).1 in
  st' ≠ st →
  serve (delete_view op (new_id op st)) (Some me) request' st'
  = (st, respond (redirect (list_page (as_operation op)))).
Proof.
  intros Hu Hr st' Hne.
  destruct (create_cases st (Some me) request op) as [?|Hc]; [done|].
  fold st' in Hc. clearbody st'.
  assert (User.role u ∈ ["shift_lead"; "manager"]) as Hlead
    by (rewrite Hr; repeat constructor).
  assert (User.role u ∈ ["manager"]) as Hman
    by (rewrite Hr; repeat constructor).
  destruct op; simpl in *; destruct Hc as [x ->].
  all: rewrite (serve_logged_in _ _ me u) by done.
  all: unfold shifts_delete, res_delete, reports_delete, hours_delete,
         deposit_delete, login_required, role_required, get_or_404; simpl.
  all: rewrite ?(bool_decide_eq_true_2 _ Hlead), ?(bool_decide_eq_true_2 _ Hman).
  all: rewrite add_lookup; simpl.
  4: { rewrite bool_decide_eq_false_2
         by (intros [Hw _]; rewrite Hr in Hw; discriminate).
       rewrite bool_decide_eq_true_2 by (left; done). simpl.
       unfold set_time_entry. simpl. rewrite delete_add.
       by rewrite store_eta. }
  all: unfold set_shift, set_reservation, set_shift_report,
         set_clothing_deposit; simpl; rewrite delete_add;
       by rewrite store_eta.
Qed.
End Creating.

Lemma create_adds_one_row_witness :
  row_ids create_time_entry
    (serve hours (Some 3)
       (post [("user_id", "3"); ("start", "2024-01-01T09:00");
              ("end", "2024-01-01T17:00")]) seeded).1
  = {[1]} ∪ row_ids create_time_entry seeded.
Proof.
  refine (proj1 (proj2 (proj2 (create_adds_one_row seeded (Some 3)
    (post [("user_id", "3"); ("start", "2024-01-01T09:00");
           ("end", "2024-01-01T17:00")]) create_time_entry _)))).
  intros Heq.
  assert (tbl_time_entry
            (serve hours (Some 3)
               (post [("user_id", "3"); ("start", "2024-01-01T09:00");
                      ("end", "2024-01-01T17:00")]) seeded).1 !! 1
          = tbl_time_entry seeded !! 1) as Hrow
    by (simpl in Heq; by rewrite Heq).
  vm_compute in Hrow. discriminate.
Defined.

Lemma create_then_delete_restores_witness :
  serve (res_delete 1) (Some 1) (post [])
    (serve reservations (Some 1) plain_reservation seeded).1
  = (seeded, respond (redirect "reservations")).
Proof.
  refine (create_then_delete_restores seeded 1 admin_row plain_reservation
    (post []) create_reservation _ _ _).
  - vm_compute; reflexivity.
  - reflexivity.
  - intros Heq.
    assert (tbl_reservation
              (serve reservations (Some 1) plain_reservation seeded).1 !! 1
            = tbl_reservation seeded !! 1) as Hrow
      by (simpl in Heq; by rewrite Heq).
    vm_compute in Hrow. discriminate.
Defined.

(** ** What the list pages show *)

Lemma query_add {A} (x : A) (m : gmap Z A) :
  query (add x m) ≡ₚ (next_id m, x) :: query m.
Proof. unfold query, add. apply map_to_list_insert, next_id_fresh. Qed.

Section Showing.
Context `{Runtime}.

(** X14: a created shift is read back as it was written: after a shift
    lead's or manager's create request with an employee and two
    timestamps that parse, whatever their order, the shifts page lists for
    every logged-in user the rows from before and the new row with exactly
    the submitted fields, sorted by start descending. *)
Theorem created_shift_is_listed st me u request employee start end_
    viewer v request' :
  tbl_user st !! me = Some u →
  User.role u ∈ ["shift_lead"; "manager"] →
  method request = POST →
  form request !! "employee" = Some employee →
  form_datetime request "start" = ret start →
  form_datetime request "end" = ret end_ →
  tbl_user st !! viewer = Some v →
  method request' = GET →
  let st' := (serve shifts (Some me) request st).1 in
  let row := Shift.mk employee (form_get request "role" EmptyString)
                      start end_ in
  ∃ data,
    response (serve shifts (Some viewer) request' st').2
    = render_template (shifts_html data)
    ∧ data ≡ₚ (next_id (tbl_shift st), row) :: query (tbl_shift st)
    ∧ StronglySorted (desc (DateTime.key ∘ Shift.start)) data.
Proof.
  intros Hu Hr Hm He Hs Hend Hv Hm' st' row. subst st' row.
  rewrite (serve_logged_in _ _ _ _ _ Hu).
  unfold shifts at 2, login_required. rewrite Hm. simpl.
  rewrite bool_decide_eq_false_2 by (intros Hn; by apply Hn).
  unfold form_item. rewrite He. simpl. rewrite Hs, Hend. simpl.
  rewrite (serve_logged_in _ _ viewer v) by done.
  unfold shifts, login_required. rewrite Hm'. simpl.
  eexists. split; [done|].
  destruct (order_by_ordered (desc (DateTime.key ∘ Shift.start))
              (query (add (Shift.mk employee
                             (form_get request "role" EmptyString)
                             start end_) (tbl_shift st)))) as [Hperm Hsort].
  split; [|exact Hsort]. rewrite Hperm. apply query_add.
Qed.

(** X15: who sees which time entries: a waiter's hours page lists exactly
    the entries whose user id is the waiter's own, and the waiter alone as
    pick-list; for every other role it lists every entry. *)
Theorem hours_page_visibility st me u request :
  tbl_user st !! me = Some u →
  method request = GET →
  ∃ data users,
    response (serve hours (Some me) request st).2
    = render_template (hours_html data users)
    ∧ (User.role u = "waiter" →
       users = [(me, u)]
       ∧ ∀ id t, (id, t) ∈ data ↔
                 tbl_time_entry st !! id = Some t
                 ∧ TimeEntry.user_id t = Some me)
    ∧ (User.role u ≠ "waiter" →
       ∀ id t, (id, t) ∈ data ↔ tbl_time_entry st !! id = Some t).
Proof.
  intros Hu Hm. rewrite (serve_logged_in _ _ _ _ _ Hu).
  unfold hours, login_required. rewrite Hm. simpl.
  destruct (decide (User.role u = "waiter")) as [Hw|Hw]; simpl;
    do 2 eexists; (split; [done|]); split; try done.
  - intros _. split; [done|]. intros id t.
    destruct (order_by_ordered (desc (DateTime.key ∘ TimeEntry.start))
      (filter (λ r : Z * TimeEntry.t, TimeEntry.user_id r.2 = Some me)
              (query (tbl_time_entry st)))) as [Hperm _].
    rewrite Hperm, list_elem_of_filter. unfold query.
    rewrite elem_of_map_to_list. simpl. tauto.
  - intros _ id t.
    destruct (order_by_ordered (desc (DateTime.key ∘ TimeEntry.start))
      (query (tbl_time_entry st))) as [Hperm _].
    rewrite Hperm. unfold query. by rewrite elem_of_map_to_list.
Qed.
End Showing.

Lemma created_shift_is_listed_witness :
  ∃ data,
    response (serve shifts (Some 3) get
                (serve shifts (Some 2)
                   (post [("employee", "Ann"); ("start", "2024-01-01T17:00");
                          ("end", "2024-01-01T09:00")]) seeded).1).2
    = render_template (shifts_html data)
    ∧ data ≡ₚ (1, Shift.mk "Ann" EmptyString five nine)
              :: query (tbl_shift seeded)
    ∧ StronglySorted (desc (DateTime.key ∘ Shift.start)) data.
Proof.
  refine (created_shift_is_listed seeded 2 lead_row
    (post [("employee", "Ann"); ("start", "2024-01-01T17:00");
           ("end", "2024-01-01T09:00")]) "Ann" five nine 3 waiter_row get
    _ _ _ _ _ _ _ _).
  - vm_compute; reflexivity.
  - apply list_elem_of_here.
  - reflexivity.
  - vm_compute; reflexivity.
  - vm_compute; reflexivity.
  - vm_compute; reflexivity.
  - vm_compute; reflexivity.
  - reflexivity.
Defined.

Lemma hours_page_visibility_witness :
  ∃ data users,
    response (serve hours (Some 3) get busy).2
    = render_template (hours_html data users)
    ∧ (User.role waiter_row = "waiter" →
       users = [(3, waiter_row)]
       ∧ ∀ id t, (id, t) ∈ data ↔
                 tbl_time_entry busy !! id = Some t
                 ∧ TimeEntry.user_id t = Some 3)
    ∧ (User.role waiter_row ≠ "waiter" →
       ∀ id t, (id, t) ∈ data ↔ tbl_time_entry busy !! id = Some t).
Proof.
  refine (hours_page_visibility busy 3 waiter_row get _ _).
  - vm_compute; reflexivity.
  - reflexivity.
Defined.

(** ** Numbers and flags in the forms *)

Section Numbers.
Context `{Runtime}.


Lemma row_added_add {A} (x : A) (m : gmap Z A) :
  row_added (next_id m) x m (add x m).
Proof.
  unfold add. split; [apply next_id_fresh|].
  split; [apply lookup_insert_eq|]. intros j Hj. by apply lookup_insert_ne.
Qed.



(** X18: what a reservation create stores: the party size is 2 when the
    size field is there and empty, and the integer the field holds when it
    is not empty; customer, time and notes are as submitted.  The row is
    stored under a fresh key, every other reservation staying as it was,
    when the size is a 64-bit integer; when it is not, the request ends in
    the internal server error of the overflow and nothing is stored. *)
Theorem reservation_create_stores st me u request customer at_ size :
  tbl_user st !! me = Some u →
  User.role u ∈ ["shift_lead"; "manager"] →
  method request = POST →
  form request !! "customer" = Some customer →
  form_datetime request "at" = ret at_ →
  (form request !! "size" = Some EmptyString ∧ size = 2)
  ∨ (∃ s, form request !! "size" = Some s ∧ s ≠ EmptyString
          ∧ py_int s = Some size) →
  let out := serve reservations (Some me) request st in
  let row := Reservation.mk customer size at_
               (form_get request "notes" EmptyString) in
  (int64 size →
     out.2 = respond (redirect "reservations")
     ∧ row_added (next_id (tbl_reservation st)) row
                 (tbl_reservation st) (tbl_reservation out.1))
  ∧ (¬ int64 size →
     out = (st, respond (internal_error OverflowError))).
Proof.
  intros Hu Hr Hm Hc Hat Hsize out row. subst out row.
  rewrite (serve_logged_in _ _ _ _ _ Hu).
  unfold reservations, login_required, role_required.
  rewrite bool_decide_eq_true_2 by done. rewrite Hm. simpl.
  unfold form_item. rewrite Hc. simpl.
  assert (form_int_or_2 request "size" = ret size) as ->.
  { unfold form_int_or_2, form_item.
    destruct Hsize as [[Hs ->]|(s & Hs & Hne & Hint)]; rewrite Hs; simpl;
      [done|]. rewrite decide_False by done. by rewrite Hint. }
  simpl. rewrite Hat. simpl. unfold storable. split.
  - intros Hfits. rewrite (decide_True _ _ Hfits). simpl.
    split; [done|]. apply row_added_add.
  - intros Hbig. by rewrite (decide_False _ _ Hbig).
Qed.

(** X19: a number that does not parse is an internal server error and
    stores nothing: a user id that [int] rejects, on the hours page for
    any role and on the deposit page for a manager; a non-empty party size
    that [int] rejects; a non-empty revenue that [float] rejects. *)
Theorem malformed_number_is_internal_error st me u request s :
  tbl_user st !! me = Some u →
  method request = POST →
  let crash := (st, respond (internal_error ValueError)) in
  (form request !! "user_id" = Some s → py_int s = None →
     serve hours (Some me) request st = crash
     ∧ (User.role u = "manager" →
        serve deposit (Some me) request st = crash))
  ∧ (User.role u ∈ ["shift_lead"; "manager"] →
     (is_Some (form request !! "customer") →
      form request !! "size" = Some s → s ≠ EmptyString →
      py_int s = None →
      serve reservations (Some me) request st = crash)
     ∧ (∀ date, form_datetime request "date" = ret date →
        form request !! "revenue" = Some s → s ≠ EmptyString →
        py_float s = None →
        serve reports (Some me) request st = crash)).
Proof.
  intros Hu Hm crash. subst crash.
  rewrite !(serve_logged_in _ _ _ _ _ Hu).
  unfold hours, deposit, reservations, reports, login_required,
    role_required, form_int, form_int_or_2.
  rewrite Hm. simpl. split.
  - intros Hs Hbad. unfold form_item. rewrite Hs. simpl. rewrite Hbad. simpl.
    split; [done|]. intros Hr.
    by rewrite bool_decide_eq_true_2 by (rewrite Hr; apply list_elem_of_here).
  - intros Hr. rewrite bool_decide_eq_true_2 by done. split.
    + intros [c Hc] Hs Hne Hbad. unfold form_item. rewrite Hc, Hs. simpl.
      rewrite decide_False by done. by rewrite Hbad.
    + intros date Hd Hs Hne Hbad. rewrite Hd. simpl.
      unfold form_float_or_0. rewrite Hs. rewrite decide_False by done.
      by rewrite Hbad.
Qed.
End Numbers.



Lemma reservation_create_stores_witness :
  tbl_reservation
    (serve reservations (Some 2)
       (post [("customer", "Jones"); ("size", EmptyString);
              ("at", "2024-02-03T20:30")]) seeded).1 !! 1
  = Some (Reservation.mk "Jones" 2
            (DateTime.mk (Date.mk 2024 2 3) 20 30 0 0) EmptyString).
Proof.
  refine (proj1 (proj2 (proj2 (proj1 (reservation_create_stores seeded 2
    lead_row
    (post [("customer", "Jones"); ("size", EmptyString);
           ("at", "2024-02-03T20:30")]) "Jones"
    (DateTime.mk (Date.mk 2024 2 3) 20 30 0 0) 2 _ _ _ _ _ _) _)))).
  - vm_compute; reflexivity.
  - apply list_elem_of_here.
  - reflexivity.
  - vm_compute; reflexivity.
  - vm_compute; reflexivity.
  - left. split; vm_compute; reflexivity.
  - unfold int64. lia.
Defined.

Lemma malformed_number_is_internal_error_witness :
  serve hours (Some 3)
    (post [("user_id", "three"); ("start", "2024-01-01T09:00");
           ("end", "2024-01-01T17:00")]) seeded
  = (seeded, respond (internal_error ValueError)).
Proof.
  refine (proj1 (proj1 (malformed_number_is_internal_error seeded 3
    waiter_row
    (post [("user_id", "three"); ("start", "2024-01-01T09:00");
           ("end", "2024-01-01T17:00")]) "three" _ _) _ _));
    vm_compute; reflexivity.
Defined.

(** ** Rows are written once *)

Section WrittenOnce.
Context `{Runtime}.

(** The users table after a request: as before, one row added under the
    next key, or one row deleted. *)
Lemma user_table_cases st session request op :
  let m := tbl_user (serve (view_of op) session request st).1 in
  m = tbl_user st
  ∨ (∃ x, m = add x (tbl_user st))
  ∨ (∃ j, m = delete j (tbl_user st)).
Proof.
  unfold serve, load_user.
  destruct session as [me|]; simpl;
    [destruct (tbl_user st !! me) as [actor|] eqn:Hu; simpl|];
    destruct op; simpl; unfold_views; simpl;
    repeat view_step; simpl; eauto.
Qed.

(** X20: no request edits a user: after any request, by anyone, a user row
    that was there is unchanged or deleted, so a stored role or password
    hash never changes; provisioning leaves every row as it was. *)
Theorem user_rows_are_never_edited st session request op id u :
  tbl_user st !! id = Some u →
  let st' := (serve (view_of op) session request st).1 in
  (tbl_user st' !! id = Some u ∨ tbl_user st' !! id = None)
  ∧ tbl_user (db_init st) !! id = Some u.
Proof.
  intros Hid st'. subst st'. split.
  - destruct (user_table_cases st session request op) as [->|[[x ->]|[j ->]]].
    + by left.
    + left. unfold add. rewrite lookup_insert_ne; [done|].
      intros Heq. rewrite <- Heq in Hid. by rewrite next_id_fresh in Hid.
    + destruct (decide (j = id)) as [->|Hne].
      * right. apply lookup_delete_eq.
      * left. by rewrite lookup_delete_ne.
  - unfold db_init. by do 3 apply ensure_lookup.
Qed.
End WrittenOnce.

Lemma user_rows_are_never_edited_witness :
  tbl_user (serve (view_of UserCreate) (Some 1) chef_request seeded).1 !! 3
  = Some waiter_row
  ∨ tbl_user (serve (view_of UserCreate) (Some 1) chef_request seeded).1 !! 3
    = None.
Proof.
  refine (proj1 (user_rows_are_never_edited seeded (Some 1) chef_request
    UserCreate 3 waiter_row _)).
  vm_compute; reflexivity.
Defined.
